(** * fkmcps: the DuckDuckGo HTML search engine (tools/search)

    A shallow embedding of [tools/search/text_search.go] and of the parts of
    [tools/search/model.go] and [tools/search/search.go] it relies on, followed
    by the properties of the pagination driver, the response parser, the
    request builder and the status classification.

    Go strings are byte sequences: they are modelled by [string], whose
    characters are bytes, so Go's [len(s)] is [String.length s].  Go's [int] is
    modelled by [Z]; a [map[string]T] by [gmap string T]. *)

From Stdlib Require Import ZArith Lia.
From stdpp Require Import base option list gmap strings pretty.

Local Open Scope Z_scope.

(** ** The Go standard library, as far as the search engine uses it *)

Module strings.

(** [strings.HasPrefix(s, prefix)]. *)
Definition HasPrefix (s prefix : string) : bool := String.prefix prefix s.

(** [strings.Contains(s, substr)]. *)
Definition Contains (s substr : string) : bool :=
  bool_decide (is_Some (String.index 0 substr s)).

Definition of_bytes (l : list nat) : string :=
  String.string_of_list_ascii (Ascii.ascii_of_nat <$> l).

(** The UTF-8 encodings of the code points for which [unicode.IsSpace]
    holds: the six ASCII ones, U+0085, U+00A0, U+1680, U+2000 to U+200A,
    U+2028, U+2029, U+202F, U+205F and U+3000. *)
Definition spaces : list string :=
  of_bytes <$>
    [ [9]; [10]; [11]; [12]; [13]; [32]; [194; 133]; [194; 160];
      [225; 154; 128];
      [226; 128; 128]; [226; 128; 129]; [226; 128; 130]; [226; 128; 131];
      [226; 128; 132]; [226; 128; 133]; [226; 128; 134]; [226; 128; 135];
      [226; 128; 136]; [226; 128; 137]; [226; 128; 138];
      [226; 128; 168]; [226; 128; 169]; [226; 128; 175];
      [226; 129; 159]; [227; 128; 128] ]%nat.

Fixpoint drop (n : nat) (s : string) : string :=
  match n, s with
  | S n', String _ s' => drop n' s'
  | _, _ => s
  end.

(** One leading white-space rune removed, if there is one. *)
Definition strip1 (table : list string) (s : string) : option string :=
  (λ p, drop (String.length p) s) <$>
    List.find (λ p, String.prefix p s) table.

Fixpoint trim_left (table : list string) (fuel : nat) (s : string) : string :=
  match fuel with
  | O => s
  | S fuel' =>
      match strip1 table s with
      | Some s' => trim_left table fuel' s'
      | None => s
      end
  end.

Definition TrimLeftSpace (s : string) : string :=
  trim_left spaces (String.length s) s.

Definition TrimRightSpace (s : string) : string :=
  String.rev (trim_left (String.rev <$> spaces) (String.length s) (String.rev s)).

(** [strings.TrimSpace(s)]: leading and trailing Unicode white space
    removed. *)
Definition TrimSpace (s : string) : string :=
  TrimRightSpace (TrimLeftSpace s).

(** [strings.Repeat(s, count)]. *)
Fixpoint Repeat (s : string) (count : nat) : string :=
  match count with
  | O => ""
  | S n => s +:+ Repeat s n
  end.

End strings.

Module utf8.

(** The byte at index [i], or 256 past the end. *)
Definition byte_at (s : string) (i : nat) : nat :=
  match String.get i s with
  | Some c => Ascii.nat_of_ascii c
  | None => 256%nat
  end.

Definition within (s : string) (i lo hi : nat) : bool :=
  (Nat.leb lo (byte_at s i) && Nat.leb (byte_at s i) hi)%bool.

(** Continuation byte at index [i]. *)
Definition cont (s : string) (i : nat) : bool := within s i 128 191.

(** Number of bytes of the first rune of a non-empty string, as
    [utf8.DecodeRuneInString] reports it: an ill-formed sequence counts as
    one byte. *)
Definition width (s : string) : nat :=
  (if within s 0 194 223 then (if cont s 1 then 2 else 1)
   else if within s 0 224 224 then
     (if within s 1 160 191 && cont s 2 then 3 else 1)
   else if within s 0 225 236 || within s 0 238 239 then
     (if cont s 1 && cont s 2 then 3 else 1)
   else if within s 0 237 237 then
     (if within s 1 128 159 && cont s 2 then 3 else 1)
   else if within s 0 240 240 then
     (if within s 1 144 191 && cont s 2 && cont s 3 then 4 else 1)
   else if within s 0 241 243 then
     (if cont s 1 && cont s 2 && cont s 3 then 4 else 1)
   else if within s 0 244 244 then
     (if within s 1 128 143 && cont s 2 && cont s 3 then 4 else 1)
   else 1)%nat.

Fixpoint count (fuel : nat) (s : string) : nat :=
  match fuel, s with
  | S fuel', String _ _ => S (count fuel' (strings.drop (width s) s))
  | _, _ => O
  end.

(** [utf8.RuneCountInString(s)]; every rune takes at least one byte, so
    [String.length s] rounds are enough. *)
Definition RuneCountInString (s : string) : nat := count (String.length s) s.

End utf8.

(** [fmt.Sprintf("%d", n)]. *)
Definition itoa (n : Z) : string := pretty n.

(** [url.Values] and [http.Header]: [map[string][]string]. *)
Abbreviation url_Values := (gmap string (list string)).
Abbreviation http_Header := (gmap string (list string)).

(** [len(m)] for a Go map. *)
Definition map_len `{Countable K} {V} (m : gmap K V) : Z := Z.of_nat (size m).

(** [len(l)] for a Go slice. *)
Definition len {A} (l : list A) : Z := Z.of_nat (length l).

(** The check of [runtime.makeslice] for a slice of pointers on linux/amd64:
    it panics when the capacity is negative or when its 8 bytes per element
    exceed [maxAlloc], which is 2^48 there.  Running out of memory below
    that limit is not modelled. *)
Definition makeslice_panics (cap : Z) : bool :=
  (cap <? 0) || (2 ^ 48 <? cap * 8).

(** ** HTML documents and the selectors of goquery

    [golang.org/x/net/html] nodes, and the part of [goquery] and of its
    selector engine [cascadia] that the parser calls.  A selected node is
    kept together with the chain of its ancestors, nearest first, which
    stands for the parent pointers of [html.Node]. *)

Module html.

#[local] Unset Elimination Schemes.
Inductive Node : Type :=
| DocumentNode (children : list Node)
| ElementNode (Data : string) (Attr : list (string * string)) (children : list Node)
| TextNode (Data : string)
| CommentNode (Data : string).
#[local] Set Elimination Schemes.

Definition children (n : Node) : list Node :=
  match n with
  | DocumentNode cs | ElementNode _ _ cs => cs
  | TextNode _ | CommentNode _ => []
  end.

Definition attrs (n : Node) : list (string * string) :=
  match n with
  | ElementNode _ a _ => a
  | _ => []
  end.

End html.

Module goquery.
Import html.

Record Located := { ancestors : list Node; node : Node }.

(** [*goquery.Selection]: the selected nodes, in document order. *)
Definition Selection := list Located.

(** The compiled form of the selector strings the parser uses. *)
Inductive Selector : Type :=
| Tag (name : string)               (* [div] *)
| Class (name : string)             (* [.web-result] *)
| Id (name : string)                (* [#links] *)
| AttrEq (key val : string)         (* [[type=hidden]] *)
| And (s1 s2 : Selector)            (* compound selector *)
| Descendant (anc s : Selector)     (* [anc s] *)
| Child (parent s : Selector).      (* [parent > s] *)

(** cascadia's [matchAttribute]: some attribute with that key satisfies
    [f]. *)
Definition matchAttribute (n : Node) (key : string) (f : string → bool) : bool :=
  existsb (λ a, bool_decide (a.1 = key) && f a.2) (attrs n).

Definition is_sep (c : Ascii.ascii) : bool :=
  bool_decide (Ascii.nat_of_ascii c ∈ [32; 9; 13; 10; 12]%nat).

(** cascadia's [matchInclude]: [val] is one of the words of [s], the words
    being separated by one of space, tab, CR, LF, FF. *)
Fixpoint matchInclude_go (val cur s : string) : bool :=
  match s with
  | "" => bool_decide (String.rev cur = val)
  | String c s' =>
      if is_sep c
      then bool_decide (String.rev cur = val) || matchInclude_go val "" s'
      else matchInclude_go val (String c cur) s'
  end.
Definition matchInclude (val s : string) : bool :=
  match s with
  | "" => false
  | _ => matchInclude_go val "" s
  end.

Definition is_element (n : Node) : bool :=
  match n with ElementNode _ _ _ => true | _ => false end.

(** [Selector.Match(n)], the parents of [n] being [up]. *)
Fixpoint matches (sel : Selector) (up : list Node) (n : Node) : bool :=
  match sel with
  | Tag name =>
      match n with
      | ElementNode d _ _ => bool_decide (d = name)
      | _ => false
      end
  | Class name => is_element n && matchAttribute n "class" (matchInclude name)
  | Id name => is_element n && matchAttribute n "id" (λ s, bool_decide (s = name))
  | AttrEq key val =>
      is_element n && matchAttribute n key (λ s, bool_decide (s = val))
  | And s1 s2 => matches s1 up n && matches s2 up n
  | Descendant a s =>
      matches s up n &&
      (fix climb (l : list Node) : bool :=
         match l with
         | [] => false
         | p :: l' => matches a l' p || climb l'
         end) up
  | Child a s =>
      matches s up n &&
      match up with
      | [] => false
      | p :: l' => matches a l' p
      end
  end.

(** All proper descendants of [n], in document order. *)
Fixpoint descendants (up : list Node) (n : Node) : Selection :=
  let walk :=
    fix walk (cs : list Node) : Selection :=
      match cs with
      | [] => []
      | c :: cs' =>
          {| ancestors := n :: up; node := c |}
            :: descendants (n :: up) c ++ walk cs'
      end in
  match n with
  | DocumentNode cs | ElementNode _ _ cs => walk cs
  | TextNode _ | CommentNode _ => []
  end.

Definition find1 (sel : Selector) (x : Located) : Selection :=
  filter (λ d, matches sel (ancestors d) (node d) = true)
         (descendants (ancestors x) (node x)).

(** [s.Find(selector)].  The parser only calls it on selections of at most
    one node, so no node is reached twice. *)
Definition Find (sel : Selector) (s : Selection) : Selection :=
  s ≫= find1 sel.

(** [s.First()], [s.Last()], [s.Length()]. *)
Definition First (s : Selection) : Selection := take 1 s.
Definition Last (s : Selection) : Selection := option_list (last s).
Definition Length (s : Selection) : Z := Z.of_nat (length s).

(** goquery's [getNodeText]. *)
Fixpoint nodeText (n : Node) : string :=
  let cat :=
    fix cat (cs : list Node) : string :=
      match cs with
      | [] => ""
      | c :: cs' => nodeText c +:+ cat cs'
      end in
  match n with
  | TextNode d => d
  | DocumentNode cs | ElementNode _ _ cs => cat cs
  | CommentNode _ => ""
  end.

(** [s.Text()]: the text of all selected nodes, concatenated. *)
Definition Text (s : Selection) : string :=
  foldr (λ x acc, nodeText (node x) +:+ acc) "" s.

(** [s.Attr(name)]: the attribute of the first selected node, and whether
    it exists. *)
Definition Attr (s : Selection) (name : string) : string * bool :=
  match s with
  | [] => ("", false)
  | x :: _ =>
      match List.find (λ a, bool_decide (a.1 = name)) (attrs (node x)) with
      | Some a => (a.2, true)
      | None => ("", false)
      end
  end.

(** The document as a selection: its root node. *)
Definition root (doc : Node) : Selection := [ {| ancestors := []; node := doc |} ].

End goquery.

(** ** net/http, context and the world outside the process *)

(** [context.Context], reduced to what an HTTP transport observes of it: the
    instant, in seconds, at which [ctx.Done()] is closed (by a deadline or by
    a call of its cancel function), if that ever happens. *)
Record Context := { doneAt : option Z }.

Module http.

Record Request := {
  Method : string;
  Url : string;
  Header : http_Header;
  Body : string;
  Ctx : Context
}.

(** [*http.Response] once its body has been drained by [io.ReadAll]: the
    bytes ([inl]) or the error of the read ([inr]). *)
Record Response := {
  StatusCode : Z;
  ReadAll : string + string
}.

Definition MethodPost : string := "POST".
Definition StatusOK : Z := 200.
Definition StatusForbidden : Z := 403.
Definition StatusTooManyRequests : Z := 429.

(** [http.NewRequestWithContext(ctx, method, url, body)].  The driver calls
    it with a constant, valid method and URL, so the only failure left is a
    nil context ([None]). *)
Definition NewRequestWithContext
    (ctx : option Context) (method url body : string) : Request + string :=
  match ctx with
  | None => inr "net/http: nil Context"
  | Some c =>
      inl {| Method := method; Url := url; Header := ∅; Body := body; Ctx := c |}
  end.

Definition with_Header (req : Request) (h : http_Header) : Request :=
  {| Method := Method req; Url := Url req; Header := h;
     Body := Body req; Ctx := Ctx req |}.

End http.

(** What the engine calls and does not own: the HTTP client held by the
    search client, the clock, the user-agent pool, the HTML parser and the
    form encoder.  [W] is the state of the world; an operation that acts on
    the world takes it and returns the next one. *)
Class Runtime (W : Type) := {
  (** [c.httpCli.Do(req)]: a response, or the error of the transport. *)
  httpCli_Do : W → http.Request → W * (http.Response + string);
  (** [<-time.After(d * time.Second)]: the world once [d] seconds have gone. *)
  time_After : Z → W → W;
  (** [uarand.GetRandom()]. *)
  uarand_GetRandom : W → W * string;
  (** [goquery.NewDocumentFromReader(strings.NewReader(s))]. *)
  goquery_NewDocumentFromReader : string → html.Node + string;
  (** [v.Encode()] of [url.Values]. *)
  url_Encode : url_Values → string
}.

(** What a run does to the world, in order. *)
Inductive Event :=
| EvDo (req : http.Request)
| EvAfter (seconds : Z).

(** ** tools/search/model.go *)

Definition searchHTMLURL : string := "https://html.duckduckgo.com/html/".

(** [type Region string] and its constants. *)
Definition Region := string.
Definition RegionWT : Region := "wt-wt".
Definition RegionUS : Region := "us-en".
Definition RegionUK : Region := "uk-en".
Definition RegionDE : Region := "de-de".
Definition RegionFR : Region := "fr-fr".
Definition RegionJP : Region := "jp-jp".
Definition RegionCN : Region := "cn-zh".
Definition RegionRU : Region := "ru-ru".

(** [type TimeRange string] and its constants. *)
Definition TimeRange_t := string.
Definition TimeRangeDay : TimeRange_t := "d".
Definition TimeRangeWeek : TimeRange_t := "w".
Definition TimeRangeMonth : TimeRange_t := "m".
Definition TimeRangeYear : TimeRange_t := "y".
Definition TimeRangeAny : TimeRange_t := "".

(** The [client] struct; its [httpCli] is [httpCli_Do] of the runtime. *)
Record client := {
  maxResults : Z;
  region : Region
}.

Record TextSearchRequest := {
  Query : string;
  TimeRange : TimeRange_t
}.

Record TextSearchResult := {
  Title : string;
  URL : string;
  Summary : string
}.

Record TextSearchResponse := {
  Message : string;
  Results : list TextSearchResult;
  ErrorMessage : string
}.

#[global] Instance TextSearchResult_eq_dec : EqDecision TextSearchResult.
Proof. solve_decision. Defined.

(** ** tools/search/search.go *)

Record Config := {
  cfg_MaxResults : Z;
  cfg_Region : Region
}.

(** [buildClient], without the HTTP client and its timeout. *)
Definition buildClient (config : Config) : client :=
  {| region := if bool_decide (cfg_Region config = "") then RegionWT
               else cfg_Region config;
     maxResults := if cfg_MaxResults config <=? 0 then 10
                   else cfg_MaxResults config |}.

(** ** tools/search/text_search.go *)

(** What a call of [TextSearch] ends in.  [Unfinished] is the model's own: the
    loop bound given to [TextSearch_loop] ran out; [TextSearch_finishes]
    shows that [TextSearch] never ends there. *)
Inductive Outcome :=
| Returned (resp : TextSearchResponse)
| Panicked (msg : string)
| Unfinished.

Definition errorResponse (msg : string) : TextSearchResponse :=
  {| Message := ""; Results := []; ErrorMessage := msg |}.

(** *** The selectors of [parseTextHTMLSearchResponse] *)

Import goquery.

(** ["div#links div.web-result"] *)
Definition sel_web_result : Selector :=
  Descendant (And (Tag "div") (Id "links")) (And (Tag "div") (Class "web-result")).
(** ["h2.result__title > a"] *)
Definition sel_title : Selector :=
  Child (And (Tag "h2") (Class "result__title")) (Tag "a").
(** ["a.result__snippet"] *)
Definition sel_snippet : Selector := And (Tag "a") (Class "result__snippet").
(** ["div.nav-link"] *)
Definition sel_nav_link : Selector := And (Tag "div") (Class "nav-link").
(** ["form"] *)
Definition sel_form : Selector := Tag "form".
(** ["input[type=hidden]"] *)
Definition sel_hidden : Selector := And (Tag "input") (AttrEq "type" "hidden").

(** The state the two closures of the parser write to. *)
Record ParseState := {
  hrefCache : gmap string bool;
  results : list TextSearchResult
}.

(** The body of the closure given to [Each] over the result entries; [s] is
    the selection of one entry. *)
Definition parse_entry (st : ParseState) (s : Located) : ParseState :=
  let title := First (Find sel_title [s]) in
  if Length title =? 0 then st else
  let href := (Attr title "href").1 in
  if bool_decide (href = "") then st else
  if bool_decide (is_Some (hrefCache st !! href))
     || strings.HasPrefix href "http://www.google.com/search?q="
     || strings.HasPrefix href "https://duckduckgo.com/y.js?ad_domain"
  then st else
  let summary := First (Find sel_snippet [s]) in
  if Length summary =? 0 then st else
  {| hrefCache := <[href := true]> (hrefCache st);
     results := results st ++
       [ {| Title := strings.TrimSpace (Text title);
            URL := href;
            Summary := strings.TrimSpace (Text summary) |} ] |}.

(** The body of the closure given to [Each] over the hidden inputs of the
    last form; [nextReqBody.Set(name, value)] replaces the values of the
    key. *)
Definition parse_hidden (nextReqBody : url_Values) (s : Located) : url_Values :=
  let '(name, nameExist) := Attr [s] "name" in
  let '(value, valueExist) := Attr [s] "value" in
  if nameExist && valueExist then <[name := [value]]> nextReqBody
  else nextReqBody.

(** The parser after [goquery] has built the document.  The slice [elements]
    of the source only sizes the capacity of [results] and is left out. *)
Definition parseDocument (doc : html.Node) : list TextSearchResult * url_Values :=
  let st :=
    foldl parse_entry {| hrefCache := ∅; results := [] |}
          (Find sel_web_result (root doc)) in
  let navLinks := Find sel_nav_link (root doc) in
  if Length navLinks =? 0 then (results st, ∅)
  else
    let lastForm := Last (Find sel_form (root doc)) in
    (results st, foldl parse_hidden ∅ (Find sel_hidden lastForm)).

Section search.
Context {W : Type} `{!Runtime W}.

Definition parseTextHTMLSearchResponse (respBody : string)
    : list TextSearchResult * url_Values + string :=
  match goquery_NewDocumentFromReader respBody with
  | inr err => inr ("failed to parse response: " +:+ err)
  | inl doc => inl (parseDocument doc)
  end.

(** The three status checks of [doTextHTMLSearch]: the error they raise, if
    any. *)
Definition statusError (code : Z) : option string :=
  if code =? http.StatusTooManyRequests then
    Some "rate limit exceeded (status 429), please wait a moment and try again"
  else if code =? http.StatusForbidden then
    Some "access forbidden (status 403), the search service may be blocking requests"
  else if negb (code =? http.StatusOK) then
    Some ("search service returned status " +:+ itoa code +:+ ", please try again later")
  else None.

Definition doTextHTMLSearch (w : W) (req : http.Request)
    : W * (list TextSearchResult * url_Values + string) :=
  let '(w', r) := httpCli_Do w req in
  match r with
  | inr err => (w', inr ("network error, please check your connection: " +:+ err))
  | inl resp =>
      match statusError (http.StatusCode resp) with
      | Some err => (w', inr err)
      | None =>
          match http.ReadAll resp with
          | inr err => (w', inr ("failed to read search results: " +:+ err))
          | inl respBody =>
              match parseTextHTMLSearchResponse respBody with
              | inr err => (w', inr ("failed to parse search results: " +:+ err))
              | inl page => (w', inl page)
              end
          end
      end
  end.

Definition buildTextHTMLRequestHeader (w : W) : W * http_Header :=
  let '(w', ua) := uarand_GetRandom w in
  (w', list_to_map
         [ ("Referer", ["https://html.duckduckgo.com/"]);
           ("Sec-Fetch-Site", ["same-origin"]);
           ("Sec-Fetch-Dest", ["document"]);
           ("Sec-Fetch-Mode", ["navigate"]);
           ("Sec-Fetch-User", ["?1"]);
           ("Content-Type", ["application/x-www-form-urlencoded"]);
           ("User-Agent", [ua]) ]).

Definition buildTextHTMLRequestBody (t : TextSearchRequest) (region : Region)
    : url_Values :=
  let body : url_Values :=
    list_to_map [ ("q", [Query t]); ("b", [""]); ("kl", [""]);
                  ("df", [TimeRangeAny]) ] in
  let body :=
    if bool_decide (region ≠ RegionWT) then <["kl" := [region]]> body
    else body in
  if bool_decide (TimeRange t ∈ [TimeRangeDay; TimeRangeWeek;
                                  TimeRangeMonth; TimeRangeYear])
  then <["df" := [TimeRange t]]> body
  else body.

(** The statements after the loop of [TextSearch]. *)
Definition finish (results : list TextSearchResult) : TextSearchResponse :=
  if len results =? 0 then
    {| Message := "No results found for your query. Try using different keywords or broader search terms.";
       Results := []; ErrorMessage := "" |}
  else
    {| Message := "Found " +:+ itoa (len results) +:+ " results successfully.";
       Results := results; ErrorMessage := "" |}.

(** The request of one round of the loop. *)
Definition pageRequest (ctx : option Context) (header : http_Header)
    (reqBody : url_Values) : http.Request + string :=
  match http.NewRequestWithContext ctx http.MethodPost searchHTMLURL
                                   (url_Encode reqBody) with
  | inr err => inr err
  | inl req => inl (http.with_Header req header)
  end.

(** The [for] loop of [TextSearch] together with the statements after it.
    [fuel] bounds the number of rounds. *)
Fixpoint TextSearch_loop (fuel : nat) (c : client) (ctx : option Context)
    (header : http_Header) (w : W) (results : list TextSearchResult)
    (reqBody : url_Values) : W * list Event * Outcome :=
  match fuel with
  | O => (w, [], Unfinished)
  | S fuel' =>
      match pageRequest ctx header reqBody with
      | inr err =>
          (w, [], Returned (errorResponse
             ("failed to create search request: " +:+ err)))
      | inl req =>
          let '(w1, r) := doTextHTMLSearch w req in
          match r with
          | inr err =>
              (w1, [EvDo req], Returned (errorResponse
                 ("search request failed: " +:+ err +:+
                  ". Please try again or rephrase your query")))
          | inl (resultsTmp, nextReqBody) =>
              if len resultsTmp =? 0 then
                (w1, [EvDo req], Returned (finish results))
              else
                let results := results ++ resultsTmp in
                let reqBody := nextReqBody in
                if maxResults c <=? len results then
                  if maxResults c <? 0 then
                    (* results[:c.maxResults] *)
                    (w1, [EvDo req],
                     Panicked "runtime error: slice bounds out of range")
                  else
                    (w1, [EvDo req],
                     Returned (finish (take (Z.to_nat (maxResults c)) results)))
                else if map_len reqBody =? 0 then
                  (w1, [EvDo req], Returned (finish results))
                else
                  let w2 := time_After 3 w1 in
                  let '(w3, tr, out) :=
                    TextSearch_loop fuel' c ctx header w2 results reqBody in
                  (w3, EvDo req :: EvAfter 3 :: tr, out)
          end
      end
  end.

Definition TextSearch (c : client) (ctx : option Context)
    (input : TextSearchRequest) (w : W) : W * list Event * Outcome :=
  if bool_decide (Query input = "") then
    (w, [], Returned (errorResponse
       "search query is required, please provide a query string"))
  else if 500 <? Z.of_nat (String.length (Query input)) then
    (w, [], Returned (errorResponse
       "search query is too long (max 500 characters), please shorten your query"))
  else if maxResults c <? 0 then
    (* make([]*TextSearchResult, 0, c.maxResults) *)
    (w, [], Panicked "runtime error: makeslice: cap out of range")
  else
    let '(w0, header) := buildTextHTMLRequestHeader w in
    let reqBody := buildTextHTMLRequestBody input (region c) in
    TextSearch_loop (S (Z.to_nat (maxResults c))) c ctx header w0 [] reqBody.

End search.

(** ** A scripted world

    A runtime to run the engine on: the server answers the requests with the
    responses of a script, one after the other, each after a given number of
    seconds; the transport gives up as soon as the context of the request is
    done, as [net/http] does.  The HTML parser is a table from page sources to
    their documents, any other source being an empty document. *)

Module Scripted.
Import html.

Record World := {
  now : Z;
  script : list (Z * (http.Response + string))
}.

Definition done_by (ctx : Context) (t : Z) : bool :=
  match doneAt ctx with
  | Some d => d <=? t
  | None => false
  end.

Definition Do (w : World) (req : http.Request) : World * (http.Response + string) :=
  if done_by (http.Ctx req) (now w) then (w, inr "context canceled")
  else
    match script w with
    | [] => (w, inr "connection refused")
    | (d, r) :: rest =>
        if done_by (http.Ctx req) (now w + d) then
          ({| now := default (now w) (doneAt (http.Ctx req)); script := rest |},
           inr "context canceled")
        else ({| now := now w + d; script := rest |}, r)
    end.

Definition After (d : Z) (w : World) : World :=
  {| now := now w + d; script := script w |}.

Definition emptyDocument : Node :=
  DocumentNode [ElementNode "html" [] [ElementNode "head" [] []; ElementNode "body" [] []]].

Definition parse (table : list (string * Node)) (src : string) : Node + string :=
  inl (default emptyDocument ((list_to_map table : gmap string Node) !! src)).

(** Stands for [Encode]: the pairs of the form joined by [&], unescaped. *)
Definition encode (v : url_Values) : string :=
  foldr (λ kv acc, kv.1 +:+ "=" +:+ foldr String.app "" kv.2 +:+ "&" +:+ acc)
        "" (map_to_list v).

Definition runtime (table : list (string * Node)) : Runtime World :=
  {| httpCli_Do := Do;
     time_After := After;
     uarand_GetRandom := λ w, (w, "Mozilla/5.0");
     goquery_NewDocumentFromReader := parse table;
     url_Encode := encode |}.

(** *** Pages of the HTML search interface *)

Definition entry (href title snippet : string) : Node :=
  ElementNode "div" [("class", "result results_links results_links_deep web-result ")]
    [ ElementNode "div" [("class", "links_main links_deep result__body")]
        [ ElementNode "h2" [("class", "result__title")]
            [ ElementNode "a" [("rel", "nofollow"); ("class", "result__a"); ("href", href)]
                [TextNode title] ];
          ElementNode "a" [("class", "result__snippet"); ("href", href)]
            [TextNode snippet] ] ].

Definition hidden (name value : string) : Node :=
  ElementNode "input" [("type", "hidden"); ("name", name); ("value", value)] [].

Definition navLink (fields : list (string * string)) : Node :=
  ElementNode "div" [("class", "nav-link")]
    [ ElementNode "form" [("action", "/html/"); ("method", "post")]
        (ElementNode "input" [("type", "submit"); ("class", "btn btn--alt"); ("value", "Next")] []
           :: (uncurry hidden <$> fields)) ].

Definition page (body : list Node) : Node :=
  DocumentNode
    [ ElementNode "html" []
        [ ElementNode "head" [] [];
          ElementNode "body" []
            [ ElementNode "form" [("action", "/html/"); ("method", "post")]
                [ElementNode "input" [("type", "text"); ("name", "q")] []];
              ElementNode "div" [("id", "links"); ("class", "results")] body ] ] ].

(** The source of a document, as [html.Render] writes it (for texts and
    attribute values without markup characters). *)
Definition quote : string := String (Ascii.ascii_of_nat 34) "".

Definition render_attrs (l : list (string * string)) : string :=
  foldr (λ a acc, " " +:+ a.1 +:+ "=" +:+ quote +:+ a.2 +:+ quote +:+ acc) "" l.

Fixpoint render (n : Node) : string :=
  let all :=
    fix all (cs : list Node) : string :=
      match cs with
      | [] => ""
      | c :: cs' => render c +:+ all cs'
      end in
  match n with
  | DocumentNode cs => all cs
  | ElementNode tag a cs =>
      if bool_decide (tag = "input") then "<" +:+ tag +:+ render_attrs a +:+ "/>"
      else "<" +:+ tag +:+ render_attrs a +:+ ">" +:+ all cs +:+ "</" +:+ tag +:+ ">"
  | TextNode d => d
  | CommentNode d => "<!--" +:+ d +:+ "-->"
  end.

Definition ok (src : string) : http.Response + string :=
  inl {| http.StatusCode := 200; http.ReadAll := inl src |}.

Definition status (code : Z) : http.Response + string :=
  inl {| http.StatusCode := code; http.ReadAll := inl "" |}.

End Scripted.

(** * Properties of the engine *)

(** ** The rounds of the pagination loop as a transition system *)

Lemma len_nil_iff {A} (l : list A) : len l = 0 ↔ l = [].
Proof. unfold len. destruct l; simpl; split; (congruence || lia). Qed.

Lemma len_app {A} (l k : list A) : len (l ++ k) = len l + len k.
Proof. unfold len. rewrite length_app. lia. Qed.

Lemma len_take {A} (n : Z) (l : list A) :
  0 ≤ n → n ≤ len l → len (take (Z.to_nat n) l) = n.
Proof. unfold len. intros ? ?. rewrite length_take. lia. Qed.

Lemma Results_finish (l : list TextSearchResult) : Results (finish l) = l.
Proof.
  unfold finish. destruct (len l =? 0) eqn:E; [|reflexivity].
  apply Z.eqb_eq, len_nil_iff in E. subst l. reflexivity.
Qed.

Lemma ErrorMessage_finish (l : list TextSearchResult) : ErrorMessage (finish l) = "".
Proof. unfold finish. destruct (len l =? 0); reflexivity. Qed.

(** [after tr r]: the run [r] put behind the events [tr]. *)
Definition after {W} (tr : list Event) (r : W * list Event * Outcome)
    : W * list Event * Outcome :=
  (r.1.1, tr ++ r.1.2, r.2).

Section rounds.
Context {W : Type} `{!Runtime W}.
Variables (c : client) (ctx : option Context) (header : http_Header).

(** The variables of the loop at the head of a round. *)
Record LoopState := {
  st_world : W;
  st_results : list TextSearchResult;
  st_reqBody : url_Values
}.

Definition run (fuel : nat) (s : LoopState) : W * list Event * Outcome :=
  TextSearch_loop fuel c ctx header (st_world s) (st_results s) (st_reqBody s).

(** A round that goes on to a next one: the page has records, they do not
    fill the result list, and the page names a continuation. *)
Inductive next_round : LoopState → http.Request → LoopState → Prop :=
| next_round_intro s req w1 rs next :
    pageRequest ctx header (st_reqBody s) = inl req →
    doTextHTMLSearch (st_world s) req = (w1, inl (rs, next)) →
    len rs ≠ 0 →
    len (st_results s ++ rs) < maxResults c →
    map_len next ≠ 0 →
    next_round s req
      {| st_world := time_After 3 w1;
         st_results := st_results s ++ rs;
         st_reqBody := next |}.

Inductive rounds : LoopState → list Event → LoopState → Prop :=
| rounds_nil s : rounds s [] s
| rounds_cons s req s1 tr s2 :
    next_round s req s1 → rounds s1 tr s2 →
    rounds s (EvDo req :: EvAfter 3 :: tr) s2.

(** Enough rounds left for the room left in the result list. *)
Definition enough (fuel : nat) (s : LoopState) : Prop :=
  (Z.to_nat (maxResults c) - length (st_results s) < fuel)%nat.

Lemma run_next_round fuel s req s1 :
  next_round s req s1 →
  run (S fuel) s = after [EvDo req; EvAfter 3] (run fuel s1).
Proof.
  intros [s0 req0 w1 rs next Hreq Hdo Hrs Hlt Hnext].
  unfold run, after. cbn [TextSearch_loop st_world st_results st_reqBody].
  rewrite Hreq, Hdo.
  destruct (len rs =? 0) eqn:E1; [apply Z.eqb_eq in E1; lia|].
  destruct (maxResults c <=? len (st_results s0 ++ rs)) eqn:E2;
    [apply Z.leb_le in E2; lia|].
  destruct (map_len next =? 0) eqn:E3; [apply Z.eqb_eq in E3; lia|].
  destruct (TextSearch_loop fuel c ctx header (time_After 3 w1)
              (st_results s0 ++ rs) next) as [[w3 tr] out].
  reflexivity.
Qed.

Lemma next_round_enough fuel s req s1 :
  next_round s req s1 → enough (S fuel) s → enough fuel s1.
Proof.
  intros [s0 req0 w1 rs next _ _ Hrs Hlt _]. unfold enough, len in *.
  cbn [st_results]. rewrite length_app in *.
  destruct rs; simpl in *; lia.
Qed.

Lemma next_round_bound s req s1 :
  next_round s req s1 → len (st_results s1) ≤ maxResults c.
Proof. intros [s0 req0 w1 rs next _ _ _ Hlt _]. cbn [st_results]. lia. Qed.

Lemma rounds_bound s tr s' :
  rounds s tr s' →
  len (st_results s) ≤ maxResults c → len (st_results s') ≤ maxResults c.
Proof.
  induction 1 as [|s req s1 tr s2 Hstep _ IH]; [tauto|].
  intros _. apply IH. eapply next_round_bound; eassumption.
Qed.

Lemma after_after (tr1 tr2 : list Event) (r : W * list Event * Outcome) :
  after tr1 (after tr2 r) = after (tr1 ++ tr2) r.
Proof. unfold after. cbn. by rewrite app_assoc. Qed.

(** The loop follows the transition system. *)
Lemma run_rounds s tr s' :
  rounds s tr s' →
  ∀ fuel, enough fuel s →
    ∃ fuel', enough fuel' s' ∧ run fuel s = after tr (run fuel' s').
Proof.
  induction 1 as [s|s req s1 tr s2 Hstep _ IH]; intros fuel Hfuel.
  - exists fuel. split; [assumption|].
    unfold after. by destruct (run fuel s) as [[? ?] ?].
  - destruct fuel as [|fuel]; [unfold enough in Hfuel; lia|].
    destruct (IH fuel) as (fuel' & Hfuel' & Hrun).
    { eapply next_round_enough; eassumption. }
    exists fuel'. split; [assumption|].
    rewrite (run_next_round _ _ _ _ Hstep), Hrun, after_after. reflexivity.
Qed.

(** *** The last round of a run *)


Lemma run_page_full fuel s req w1 rs next :
  pageRequest ctx header (st_reqBody s) = inl req →
  doTextHTMLSearch (st_world s) req = (w1, inl (rs, next)) →
  0 ≤ maxResults c → len rs ≠ 0 →
  maxResults c ≤ len (st_results s ++ rs) →
  run (S fuel) s =
    (w1, [EvDo req],
     Returned (finish (take (Z.to_nat (maxResults c)) (st_results s ++ rs)))).
Proof.
  intros Hreq Hdo Hmax Hrs Hfull. unfold run. cbn [TextSearch_loop].
  rewrite Hreq, Hdo.
  destruct (len rs =? 0) eqn:E1; [apply Z.eqb_eq in E1; lia|].
  destruct (maxResults c <=? len (st_results s ++ rs)) eqn:E2;
    [|apply Z.leb_gt in E2; lia].
  destruct (maxResults c <? 0) eqn:E3; [apply Z.ltb_lt in E3; lia|].
  reflexivity.
Qed.


(** *** Bounds that hold whatever the server answers *)

Lemma run_finishes fuel s :
  enough fuel s → (run fuel s).2 ≠ Unfinished.
Proof.
  revert s. induction fuel as [|fuel IH]; intros [w acc body] Hfuel.
  { unfold enough in Hfuel. lia. }
  unfold run in *. cbn [TextSearch_loop st_world st_results st_reqBody] in *.
  destruct (pageRequest ctx header body) as [req|err]; [|done].
  destruct (doTextHTMLSearch w req) as [w1 [[rs next]|err]]; [|done].
  destruct (len rs =? 0) eqn:E1; [done|].
  destruct (maxResults c <=? len (acc ++ rs)) eqn:E2.
  { by destruct (maxResults c <? 0). }
  destruct (map_len next =? 0) eqn:E3; [done|].
  specialize (IH {| st_world := time_After 3 w1; st_results := acc ++ rs;
                    st_reqBody := next |}).
  cbn [st_world st_results st_reqBody] in IH.
  destruct (TextSearch_loop fuel c ctx header (time_After 3 w1) (acc ++ rs) next)
    as [[w3 tr] out].
  cbn in *. apply IH.
  apply Z.eqb_neq in E1. apply Z.leb_gt in E2.
  unfold enough, len in *. cbn [st_results] in *. rewrite length_app in *.
  destruct rs; simpl in *; lia.
Qed.

Lemma run_results_bound fuel s resp :
  0 ≤ maxResults c → len (st_results s) ≤ maxResults c →
  (run fuel s).2 = Returned resp → len (Results resp) ≤ maxResults c.
Proof.
  intros Hmax. revert s. induction fuel as [|fuel IH]; intros [w acc body] Hacc.
  { discriminate. }
  unfold run in *. cbn [TextSearch_loop st_world st_results st_reqBody] in *.
  destruct (pageRequest ctx header body) as [req|err].
  2: { intros [= <-]. exact Hmax. }
  destruct (doTextHTMLSearch w req) as [w1 [[rs next]|err]].
  2: { intros [= <-]. exact Hmax. }
  destruct (len rs =? 0) eqn:E1.
  { intros [= <-]. by rewrite Results_finish. }
  destruct (maxResults c <=? len (acc ++ rs)) eqn:E2.
  { destruct (maxResults c <? 0); [discriminate|].
    intros [= <-]. rewrite Results_finish. unfold len.
    rewrite length_take. lia. }
  apply Z.leb_gt in E2.
  destruct (map_len next =? 0) eqn:E3.
  { intros [= <-]. rewrite Results_finish. lia. }
  specialize (IH {| st_world := time_After 3 w1; st_results := acc ++ rs;
                    st_reqBody := next |}).
  cbn [st_world st_results st_reqBody] in IH.
  destruct (TextSearch_loop fuel c ctx header (time_After 3 w1) (acc ++ rs) next)
    as [[w3 tr] out].
  cbn in *. apply IH. lia.
Qed.

End rounds.

(** ** From a call of [TextSearch] to a round of its loop *)

Section driver.
Context {W : Type} `{!Runtime W}.
Variables (c : client) (ctx : option Context) (input : TextSearchRequest) (w : W).

(** [reaches header tr s]: the call passes the validation of the query,
    allocates the result list, and after the events [tr] stands at the head
    of a round in state [s], with the request headers [header]. *)
Definition reaches (header : http_Header) (tr : list Event) (s : LoopState) : Prop :=
  Query input ≠ "" ∧
  Z.of_nat (String.length (Query input)) ≤ 500 ∧
  0 ≤ maxResults c ∧
  ∃ w0, buildTextHTMLRequestHeader w = (w0, header) ∧
        rounds c ctx header
          {| st_world := w0; st_results := [];
             st_reqBody := buildTextHTMLRequestBody input (region c) |} tr s.

Lemma TextSearch_valid :
  Query input ≠ "" → Z.of_nat (String.length (Query input)) ≤ 500 →
  0 ≤ maxResults c →
  TextSearch c ctx input w =
    run c ctx (buildTextHTMLRequestHeader w).2 (S (Z.to_nat (maxResults c)))
      {| st_world := (buildTextHTMLRequestHeader w).1; st_results := [];
         st_reqBody := buildTextHTMLRequestBody input (region c) |}.
Proof.
  intros Hq Hlen Hmax. unfold TextSearch.
  rewrite bool_decide_eq_false_2 by assumption.
  destruct (500 <? _) eqn:E1; [apply Z.ltb_lt in E1; lia|].
  destruct (maxResults c <? 0) eqn:E2; [apply Z.ltb_lt in E2; lia|].
  by destruct (buildTextHTMLRequestHeader w).
Qed.

Lemma TextSearch_reaches header tr s :
  reaches header tr s →
  len (st_results s) ≤ maxResults c ∧
  ∃ fuel, TextSearch c ctx input w = after tr (run c ctx header (S fuel) s).
Proof.
  intros (Hq & Hlen & Hmax & w0 & Hhdr & Hrounds). split.
  { eapply rounds_bound; [eassumption|]. cbn. exact Hmax. }
  rewrite TextSearch_valid by assumption. rewrite Hhdr. cbn [fst snd].
  edestruct run_rounds as (fuel & Hfuel & ->); [eassumption| |].
  { unfold enough. cbn [st_results length]. lia. }
  destruct fuel as [|fuel]; [unfold enough in Hfuel; lia|].
  by exists fuel.
Qed.

(** [TextSearch] always comes to an end: the bound of its loop is never
    what stops it. *)
Lemma TextSearch_finishes : (TextSearch c ctx input w).2 ≠ Unfinished.
Proof.
  unfold TextSearch.
  destruct (bool_decide _); [done|].
  destruct (500 <? _); [done|].
  destruct (maxResults c <? 0) eqn:E; [done|].
  destruct (buildTextHTMLRequestHeader w) as [w0 header].
  pose proof (run_finishes c ctx header (S (Z.to_nat (maxResults c)))
           {| st_world := w0; st_results := [];
              st_reqBody := buildTextHTMLRequestBody input (region c) |}) as H.
  apply H. unfold enough. cbn [st_results length]. lia.
Qed.

End driver.

(** ** Worked conversations, on the scripted world *)

Module Examples.
Import Scripted.

Definition golang1 : html.Node :=
  page [ entry "https://go.dev/" " The Go Programming Language "
           "Go is an open source programming language";
         entry "https://go.dev/" "Go" "The same link again";
         entry "https://go.dev/doc/" "Documentation" "The Go docs";
         navLink [("q", "golang"); ("s", "10"); ("vqd", "4-123")] ].

Definition golang2 : html.Node :=
  page [ entry "https://go.dev/" " The Go Programming Language "
           "Go is an open source programming language";
         entry "https://pkg.go.dev/" "Go Packages" "Find packages" ].

(** An entry whose title link has no text. *)
Definition untitled : html.Node :=
  page [ entry "https://example.com/" "" "A page without a title" ].

(** The parser of the examples knows the sources of these documents. *)
Definition pages : list (string * html.Node) :=
  (λ doc, (render doc, doc)) <$> [golang1; golang2; untitled].

Definition rt : Runtime World := runtime pages.

Definition world (answers : list (Z * (http.Response + string))) : World :=
  {| now := 0; script := answers |}.

(** Both pages, one second each. *)
Definition two_pages : World :=
  world [ (1, ok (render golang1));
          (1, ok (render golang2)) ].


(** The page with the untitled entry, and nothing after it. *)
Definition untitled_page : World := world [ (1, ok (render untitled)) ].

(** A single answer with the given status. *)
Definition answering (code : Z) : World := world [ (1, status code) ].

Definition request : http.Request :=
  {| http.Method := http.MethodPost; http.Url := searchHTMLURL;
     http.Header := ∅; http.Body := "q=golang";
     http.Ctx := {| doneAt := None |} |}.

Definition background : option Context := Some {| doneAt := None |}.

Definition golang : TextSearchRequest := {| Query := "golang"; TimeRange := "" |}.

Definition upto (n : Z) : client := {| maxResults := n; region := RegionWT |}.

(** The conversation about [golang], step by step: the headers, the two
    requests, the records and the token of the first page, and the state of
    the loop at the head of the second round, the first page having come from
    a world that then is [w1]. *)
Definition header : http_Header :=
  (buildTextHTMLRequestHeader (Runtime0 := rt) two_pages).2.

Definition request_for (ctx : Context) (body : url_Values) : http.Request :=
  http.with_Header
    {| http.Method := http.MethodPost; http.Url := searchHTMLURL;
       http.Header := ∅; http.Body := encode body; http.Ctx := ctx |}
    header.

Definition req1 : http.Request :=
  request_for {| doneAt := None |} (buildTextHTMLRequestBody golang RegionWT).

Definition rs1 : list TextSearchResult := (parseDocument golang1).1.
Definition next1 : url_Values := (parseDocument golang1).2.
Definition rs2 : list TextSearchResult := (parseDocument golang2).1.

Definition req2 : http.Request := request_for {| doneAt := None |} next1.

Definition first_round (w : World) : LoopState :=
  {| st_world := w; st_results := [];
     st_reqBody := buildTextHTMLRequestBody golang RegionWT |}.

Definition second_round (w1 : World) : LoopState :=
  {| st_world := After 3 w1; st_results := rs1; st_reqBody := next1 |}.

(** The world once the first answer of the script has come. *)
Definition then_ (w : World) : World :=
  {| now := 1; script := tail (script w) |}.

(** What a trace shows of the requests: the bodies sent and the waits. *)
Definition shape (tr : list Event) : list (string + Z) :=
  (λ e, match e with
        | EvDo req => inl (http.Body req)
        | EvAfter d => inr d
        end) <$> tr.

End Examples.

(** ** The claims *)

(** Closes a goal on closed terms by evaluation. *)
Ltac by_computation := vm_compute; first [reflexivity | discriminate].

(** [reaches], the headers being built in world [w0]. *)
Ltac conclude_reaches w0 k :=
  split; [discriminate|];
  split; [by_computation|];
  split; [by_computation|];
  exists w0; split; [by_computation|]; k.


(** C1. Whenever [TextSearch] returns a success outcome, its result list has
    at most [maxResults] records; and at a round whose page brings the
    accumulated records to [maxResults] or more, the call ends there, with
    the accumulated records cut to exactly [maxResults]. *)
Theorem TextSearch_results_within_maxResults
    {W : Type} `{!Runtime W} (c : client) (ctx : option Context)
    (input : TextSearchRequest) (w : W) :
  (∀ resp,
     (TextSearch c ctx input w).2 = Returned resp →
     ErrorMessage resp = "" →
     len (Results resp) ≤ maxResults c) ∧
  (∀ header tr s req w1 rs next,
     reaches c ctx input w header tr s →
     pageRequest ctx header (st_reqBody s) = inl req →
     doTextHTMLSearch (st_world s) req = (w1, inl (rs, next)) →
     len rs ≠ 0 →
     maxResults c ≤ len (st_results s ++ rs) →
     ∃ resp,
       TextSearch c ctx input w = (w1, tr ++ [EvDo req], Returned resp) ∧
       ErrorMessage resp = "" ∧
       Results resp = take (Z.to_nat (maxResults c)) (st_results s ++ rs) ∧
       len (Results resp) = maxResults c).
Proof.
  split.
  - intros resp. unfold TextSearch.
    destruct (bool_decide _); [by intros [= <-]|].
    destruct (500 <? _); [by intros [= <-]|].
    destruct (maxResults c <? 0) eqn:E; [discriminate|].
    apply Z.ltb_ge in E.
    destruct (buildTextHTMLRequestHeader w) as [w0 header].
    intros Hrun _.
    apply (run_results_bound c ctx header (S (Z.to_nat (maxResults c)))
             {| st_world := w0; st_results := [];
                st_reqBody := buildTextHTMLRequestBody input (region c) |});
      [assumption|cbn; assumption|exact Hrun].
  - intros header tr s req w1 rs next Hreach Hreq Hdo Hrs Hfull.
    destruct (TextSearch_reaches _ _ _ _ _ _ _ Hreach) as (Hacc & fuel & ->).
    pose proof Hreach as (_ & _ & Hmax & _).
    rewrite (run_page_full c ctx header fuel s req w1 rs next) by assumption.
    eexists. split; [reflexivity|].
    rewrite ErrorMessage_finish, Results_finish.
    split; [reflexivity|]. split; [reflexivity|].
    by apply len_take.
Qed.

Lemma TextSearch_results_within_maxResults_witness :
  len (Results (finish (take 3 (Examples.rs1 ++ Examples.rs2))))
    ≤ maxResults (Examples.upto 3) ∧
  ∃ resp,
    TextSearch (Runtime0 := Examples.rt) (Examples.upto 3) Examples.background
      Examples.golang Examples.two_pages
    = (Scripted.Build_World 5 [],
       [EvDo Examples.req1; EvAfter 3] ++ [EvDo Examples.req2],
       Returned resp) ∧
    ErrorMessage resp = "" ∧
    Results resp =
      take (Z.to_nat (maxResults (Examples.upto 3)))
           (st_results (Examples.second_round (Examples.then_ Examples.two_pages))
              ++ Examples.rs2) ∧
    len (Results resp) = maxResults (Examples.upto 3).
Proof.
  split.
  - apply (proj1 (TextSearch_results_within_maxResults (Runtime0 := Examples.rt)
                    (Examples.upto 3) Examples.background Examples.golang
                    Examples.two_pages));
      by_computation.
  - apply (proj2 (TextSearch_results_within_maxResults (Runtime0 := Examples.rt)
                    (Examples.upto 3) Examples.background Examples.golang
                    Examples.two_pages)
             Examples.header [EvDo Examples.req1; EvAfter 3]
             (Examples.second_round (Examples.then_ Examples.two_pages))
             Examples.req2 (Scripted.Build_World 5 []) Examples.rs2 ∅).
    + conclude_reaches Examples.two_pages
      ltac:(eapply rounds_cons;
            [ apply (next_round_intro (Examples.upto 3) Examples.background
                       Examples.header (Examples.first_round Examples.two_pages)
                       Examples.req1 (Examples.then_ Examples.two_pages)
                       Examples.rs1 Examples.next1); by_computation
            | apply rounds_nil ]).
    + by_computation.
    + by_computation.
    + by_computation.
    + by_computation.
Defined.



(** The page of a successful request is what the parser makes of a
    document. *)
Lemma doTextHTMLSearch_page {W : Type} `{!Runtime W} (w : W) req w1 rs next :
  doTextHTMLSearch w req = (w1, inl (rs, next)) →
  ∃ doc, parseDocument doc = (rs, next).
Proof.
  unfold doTextHTMLSearch, parseTextHTMLSearchResponse.
  destruct (httpCli_Do w req) as [w' [resp|e]]; [|discriminate].
  destruct (statusError _); [discriminate|].
  destruct (http.ReadAll resp) as [body|e]; [|discriminate].
  destruct (goquery_NewDocumentFromReader body) as [doc|e]; [|discriminate].
  intros [= _ Hpage]. by exists doc.
Qed.






(** ** The parser: what every page satisfies *)

(** The invariant of the loop over the result entries: the links collected
    so far are pairwise distinct, none is empty, all are in [hrefCache]. *)
Definition entries_ok (st : ParseState) : Prop :=
  NoDup (URL <$> results st) ∧
  ∀ r, r ∈ results st → URL r ≠ "" ∧ is_Some (hrefCache st !! URL r).

Lemma parse_entry_ok (st : ParseState) (s : Located) :
  entries_ok st → entries_ok (parse_entry st s).
Proof.
  intros [Hnodup Hin]. unfold parse_entry.
  destruct (Length _ =? 0); [by split|].
  set (href := (Attr _ "href").1).
  destruct (bool_decide (href = "")) eqn:Hhref; [by split|].
  apply bool_decide_eq_false in Hhref.
  destruct (bool_decide (is_Some (hrefCache st !! href))) eqn:Hseen; [by split|].
  apply bool_decide_eq_false in Hseen.
  destruct (_ || _); [by split|].
  destruct (Length _ =? 0); [by split|].
  split; cbn [results hrefCache].
  - rewrite fmap_app. cbn [fmap list_fmap URL]. apply NoDup_app.
    split; [assumption|]. split; [|apply NoDup_singleton].
    intros u Hu ->%list_elem_of_singleton.
    apply list_elem_of_fmap in Hu as (r & -> & Hr).
    by destruct (Hin r Hr) as [_ ?].
  - intros r [Hr| ->%list_elem_of_singleton]%elem_of_app.
    + destruct (Hin r Hr) as [Hne Hsome]. split; [assumption|].
      destruct (decide (href = URL r)) as [->|Hother].
      * rewrite lookup_insert_eq. by eexists.
      * by rewrite lookup_insert_ne.
    + cbn [URL]. split; [assumption|]. rewrite lookup_insert_eq. by eexists.
Qed.

Lemma parseDocument_results (doc : html.Node) :
  (parseDocument doc).1 =
  results (foldl parse_entry {| hrefCache := ∅; results := [] |}
             (Find sel_web_result (root doc))).
Proof. unfold parseDocument. by destruct (Length _ =? 0). Qed.

Lemma parseDocument_ok (doc : html.Node) :
  NoDup (URL <$> (parseDocument doc).1) ∧
  ∀ r, r ∈ (parseDocument doc).1 → URL r ≠ "".
Proof.
  rewrite parseDocument_results.
  assert (∀ l st, entries_ok st → entries_ok (foldl parse_entry st l)) as Hfold.
  { induction l as [|s l IH]; intros st Hst; [exact Hst|].
    cbn [foldl]. apply IH. by apply parse_entry_ok. }
  destruct (Hfold (Find sel_web_result (root doc))
              {| hrefCache := ∅; results := [] |}) as [Hnodup Hin].
  { split; [constructor|]. intros r Hr. by apply elem_of_nil in Hr. }
  split; [assumption|]. intros r Hr. by destruct (Hin r Hr).
Qed.




(** ** Validation of the query *)

Definition msg_query_required : string :=
  "search query is required, please provide a query string".
Definition msg_query_too_long : string :=
  "search query is too long (max 500 characters), please shorten your query".

Lemma TextSearch_empty_query {W : Type} `{!Runtime W} c ctx input (w : W) :
  Query input = "" →
  TextSearch c ctx input w = (w, [], Returned (errorResponse msg_query_required)).
Proof. intros Hq. unfold TextSearch. by rewrite bool_decide_eq_true_2. Qed.

Lemma TextSearch_long_query {W : Type} `{!Runtime W} c ctx input (w : W) :
  500 < Z.of_nat (String.length (Query input)) →
  TextSearch c ctx input w = (w, [], Returned (errorResponse msg_query_too_long)).
Proof.
  intros Hlen. unfold TextSearch.
  rewrite bool_decide_eq_false_2.
  2: { intros Hq. rewrite Hq in Hlen. cbn in Hlen. lia. }
  apply Z.ltb_lt in Hlen. by rewrite Hlen.
Qed.

(** C7. The query is checked before anything else is done.  With an empty
    query the call returns an error outcome whose message contains "query is
    required"; with a query of more than 500 bytes one whose message contains
    "too long"; in both cases without results, without any event (no request
    is sent) and with the world as it was. *)
Theorem TextSearch_validates_before_any_request
    {W : Type} `{!Runtime W} (c : client) (ctx : option Context)
    (input : TextSearchRequest) (w : W) :
  (Query input = "" →
   ∃ resp,
     TextSearch c ctx input w = (w, [], Returned resp) ∧
     strings.Contains (ErrorMessage resp) "query is required" = true ∧
     Message resp = "" ∧ Results resp = []) ∧
  (500 < Z.of_nat (String.length (Query input)) →
   ∃ resp,
     TextSearch c ctx input w = (w, [], Returned resp) ∧
     strings.Contains (ErrorMessage resp) "too long" = true ∧
     Message resp = "" ∧ Results resp = []).
Proof.
  split; intros Hq.
  - rewrite TextSearch_empty_query by assumption.
    eexists. split; [reflexivity|]. split; [vm_compute; reflexivity|]. by split.
  - rewrite TextSearch_long_query by assumption.
    eexists. split; [reflexivity|]. split; [vm_compute; reflexivity|]. by split.
Qed.

Lemma TextSearch_validates_before_any_request_witness :
  (∃ resp,
     TextSearch (Runtime0 := Examples.rt) (Examples.upto 5) Examples.background
       {| Query := ""; TimeRange := TimeRangeAny |} Examples.two_pages
     = (Examples.two_pages, [], Returned resp) ∧
     strings.Contains (ErrorMessage resp) "query is required" = true ∧
     Message resp = "" ∧ Results resp = []) ∧
  (∃ resp,
     TextSearch (Runtime0 := Examples.rt) (Examples.upto 5) Examples.background
       {| Query := strings.Repeat "a" 501; TimeRange := TimeRangeAny |}
       Examples.two_pages
     = (Examples.two_pages, [], Returned resp) ∧
     strings.Contains (ErrorMessage resp) "too long" = true ∧
     Message resp = "" ∧ Results resp = []).
Proof.
  split.
  - apply (TextSearch_validates_before_any_request (Runtime0 := Examples.rt)).
    reflexivity.
  - apply (TextSearch_validates_before_any_request (Runtime0 := Examples.rt)).
    vm_compute. reflexivity.
Defined.

(** C10. The length that is checked is the number of bytes: 200 times the
    three-byte character U+4E2D is 200 characters and 600 bytes long, and the
    call rejects it as too long, without any request. *)
Theorem TextSearch_query_length_is_in_bytes :
  ∃ q : string,
    (utf8.RuneCountInString q ≤ 500)%nat ∧
    500 < Z.of_nat (String.length q) ∧
    ∀ (W : Type) (R : Runtime W) (c : client) (ctx : option Context)
      (range : TimeRange_t) (w : W),
      ∃ resp,
        TextSearch c ctx {| Query := q; TimeRange := range |} w
        = (w, [], Returned resp) ∧
        strings.Contains (ErrorMessage resp) "too long" = true ∧
        Results resp = [].
Proof.
  exists (strings.Repeat (strings.of_bytes [228; 184; 173]%nat) 200).
  split; [vm_compute; lia|]. split; [vm_compute; reflexivity|].
  intros W R c ctx range w.
  rewrite TextSearch_long_query by (vm_compute; reflexivity).
  eexists. split; [reflexivity|]. split; [vm_compute; reflexivity|reflexivity].
Qed.

(** ** The request builder *)

(** The value of [df] for a time range. *)
Definition df_of (range : TimeRange_t) : string :=
  if bool_decide (range ∈ [TimeRangeDay; TimeRangeWeek; TimeRangeMonth; TimeRangeYear])
  then range else "".

(** The value of [kl] for a region. *)
Definition kl_of (region : Region) : string :=
  if bool_decide (region = RegionWT) then "" else region.

(** C9. The body of the first request has exactly the keys [q], [b], [kl]
    and [df], each with one value: the query text, the empty string, the
    region code (empty for the world region [wt-wt]) and the code of the time
    range (empty for "any", [d], [w], [m], [y] for day, week, month, year). *)
Theorem buildTextHTMLRequestBody_fields (t : TextSearchRequest) (region : Region) :
  dom (buildTextHTMLRequestBody t region) = {[ "q"; "b"; "kl"; "df" ]} ∧
  buildTextHTMLRequestBody t region !! "q" = Some [Query t] ∧
  buildTextHTMLRequestBody t region !! "b" = Some [""] ∧
  buildTextHTMLRequestBody t region !! "kl" = Some [kl_of region] ∧
  buildTextHTMLRequestBody t region !! "df" = Some [df_of (TimeRange t)] ∧
  kl_of RegionWT = "" ∧
  df_of TimeRangeAny = "" ∧
  df_of TimeRangeDay = "d" ∧ df_of TimeRangeWeek = "w" ∧
  df_of TimeRangeMonth = "m" ∧ df_of TimeRangeYear = "y".
Proof.
  unfold buildTextHTMLRequestBody, kl_of, df_of.
  destruct (decide (region = RegionWT)) as [Hr|Hr].
  - rewrite (bool_decide_eq_false_2 (region ≠ RegionWT)) by tauto.
    rewrite (bool_decide_eq_true_2 (region = RegionWT)) by assumption.
    destruct (bool_decide (TimeRange t ∈ _));
      repeat split; try reflexivity; try (vm_compute; reflexivity).
  - rewrite (bool_decide_eq_true_2 (region ≠ RegionWT)) by assumption.
    rewrite (bool_decide_eq_false_2 (region = RegionWT)) by assumption.
    destruct (bool_decide (TimeRange t ∈ _));
      repeat split; try reflexivity; try (vm_compute; reflexivity).
Qed.

(** ** The classification of the status *)

(** The kinds of the specification that a status leads to.  The code has no
    such type: it tells the kinds apart by the text of the error. *)
Inductive ErrorKind :=
| RateLimited
| Blocked
| UpstreamError (code : Z).

(** The error [doTextHTMLSearch] raises for each kind. *)
Definition kind_message (k : ErrorKind) : string :=
  match k with
  | RateLimited =>
      "rate limit exceeded (status 429), please wait a moment and try again"
  | Blocked =>
      "access forbidden (status 403), the search service may be blocking requests"
  | UpstreamError code =>
      "search service returned status " +:+ itoa code +:+ ", please try again later"
  end.

(** The classification in the words of the specification: 429, 403, any
    other status outside 200..299; a status within 200..299 is no error. *)
Definition classify_spec (code : Z) : option ErrorKind :=
  if code =? 429 then Some RateLimited
  else if code =? 403 then Some Blocked
  else if (200 <=? code) && (code <=? 299) then None
  else Some (UpstreamError code).

(** A 202 is within 200..299, and the code takes it for an upstream error. *)
Lemma status_202_is_an_error :
  classify_spec 202 = None ∧
  statusError 202 = Some (kind_message (UpstreamError 202)) ∧
  (doTextHTMLSearch (Runtime0 := Examples.rt) (Examples.answering 202)
     Examples.request).2
  = inr "search service returned status 202, please try again later".
Proof. repeat split; vm_compute; reflexivity. Qed.

(** C5, amended. For a response the transport delivers: status 429 raises the
    rate-limit error, status 403 the forbidden error, every other status but
    200 the upstream error that carries the status; only with status 200 is
    no status error raised and the body read and parsed. *)
Theorem doTextHTMLSearch_status_classification
    {W : Type} `{!Runtime W} (w : W) (req : http.Request) (w1 : W)
    (resp : http.Response) :
  httpCli_Do w req = (w1, inl resp) →
  (http.StatusCode resp = 429 →
   doTextHTMLSearch w req = (w1, inr (kind_message RateLimited))) ∧
  (http.StatusCode resp = 403 →
   doTextHTMLSearch w req = (w1, inr (kind_message Blocked))) ∧
  (http.StatusCode resp ≠ 429 → http.StatusCode resp ≠ 403 →
   http.StatusCode resp ≠ 200 →
   doTextHTMLSearch w req =
     (w1, inr (kind_message (UpstreamError (http.StatusCode resp))))) ∧
  (http.StatusCode resp = 200 →
   statusError (http.StatusCode resp) = None ∧
   doTextHTMLSearch w req =
     (w1, match http.ReadAll resp with
          | inr err => inr ("failed to read search results: " +:+ err)
          | inl respBody =>
              match parseTextHTMLSearchResponse respBody with
              | inr err => inr ("failed to parse search results: " +:+ err)
              | inl page => inl page
              end
          end)).
Proof.
  intros Hdo. unfold doTextHTMLSearch. rewrite Hdo.
  split; [|split; [|split]].
  - intros ->. reflexivity.
  - intros ->. reflexivity.
  - intros H429 H403 H200. unfold statusError, http.StatusTooManyRequests,
      http.StatusForbidden, http.StatusOK.
    apply Z.eqb_neq in H429, H403, H200. by rewrite H429, H403, H200.
  - intros ->. split; [reflexivity|].
    change (statusError 200) with (@None string).
    destruct (http.ReadAll resp) as [body|e]; [|reflexivity].
    by destruct (parseTextHTMLSearchResponse body).
Qed.

Lemma doTextHTMLSearch_status_classification_witness :
  doTextHTMLSearch (Runtime0 := Examples.rt) (Examples.answering 500)
    Examples.request
  = ({| Scripted.now := 1; Scripted.script := [] |},
     inr "search service returned status 500, please try again later").
Proof.
  edestruct (doTextHTMLSearch_status_classification (Runtime0 := Examples.rt)
               (Examples.answering 500) Examples.request)
    as (_ & _ & Hother & _).
  - vm_compute. reflexivity.
  - rewrite Hother by (vm_compute; discriminate). vm_compute. reflexivity.
Defined.

(** ** Titles *)

(** Every record of a page has a link, and a link that no other record of
    the page has. *)
Lemma parseDocument_urls (doc : html.Node) (r : TextSearchResult) :
  r ∈ (parseDocument doc).1 → URL r ≠ "".
Proof. apply parseDocument_ok. Qed.

(** C4. On a page with an entry whose title link has no text, the parser
    keeps the entry, and the call returns it as a result with an empty
    title. *)
Theorem TextSearch_returns_untitled_result :
  (parseDocument Examples.untitled).1 =
    [ {| Title := ""; URL := "https://example.com/";
         Summary := "A page without a title" |} ] ∧
  (TextSearch (Runtime0 := Examples.rt) (Examples.upto 5) Examples.background
     Examples.golang Examples.untitled_page).2 =
    Returned {| Message := "Found 1 results successfully.";
                Results := [ {| Title := ""; URL := "https://example.com/";
                                Summary := "A page without a title" |} ];
                ErrorMessage := "" |}.
Proof. split; vm_compute; reflexivity. Qed.

(** ** Cancellation *)

(** A round that goes on hands the world to the clock for three seconds and
    then sends the next request, whatever the context. *)
Lemma next_round_waits {W : Type} `{!Runtime W} c ctx header (s : LoopState) req s1 :
  next_round c ctx header s req s1 →
  ∃ w1, (doTextHTMLSearch (st_world s) req).1 = w1 ∧
        st_world s1 = time_After 3 w1.
Proof. intros [s0 req0 w1 rs next _ Hdo _ _ _]. exists w1. by rewrite Hdo. Qed.

(** C3. A call whose context is done at second 2, while the loop waits
    between the first page (received at second 1) and the second request:
    the wait runs its three seconds, the second request is handed to the
    HTTP client at second 4, and only then does the call return. *)
Theorem TextSearch_waits_through_cancellation :
  ∃ w' tr resp,
    TextSearch (Runtime0 := Examples.rt) (Examples.upto 5)
      (Some {| doneAt := Some 2 |}) Examples.golang Examples.two_pages
    = (w', tr, Returned resp) ∧
    Scripted.now w' = 4 ∧
    Examples.shape tr =
      [inl "kl=&q=golang&b=&df=&"; inr 3; inl "s=10&q=golang&vqd=4-123&"] ∧
    ErrorMessage resp =
      "search request failed: network error, please check your connection: context canceled. Please try again or rephrase your query".
Proof. eexists _, _, _. repeat split; vm_compute; reflexivity. Qed.

(** * Further properties of the search package *)

(** ** Outcomes of the loop *)

Section outcomes.
Context {W : Type} `{!Runtime W}.
Variables (c : client) (ctx : option Context) (header : http_Header).

(** A rule for what the loop ends in: [Inv] holds of the accumulated
    records at the head of every round, [Post] of the outcome. *)
Lemma run_outcome (Inv : list TextSearchResult → Prop) (Post : Outcome → Prop) :
  Post Unfinished →
  (maxResults c < 0 → ∀ msg, Post (Panicked msg)) →
  (∀ err, Post (Returned (errorResponse
             ("failed to create search request: " +:+ err)))) →
  (∀ err, Post (Returned (errorResponse
             ("search request failed: " +:+ err +:+
              ". Please try again or rephrase your query")))) →
  (∀ l, Inv l → Post (Returned (finish l))) →
  (∀ l doc, Inv l → Inv (l ++ (parseDocument doc).1)) →
  (∀ l n, Inv l → Inv (take n l)) →
  ∀ fuel s, Inv (st_results s) → Post (run c ctx header fuel s).2.
Proof.
  intros Hunf Hpanic Hcreate Hfail Hfinish Happ Htake.
  induction fuel as [|fuel IH]; intros [w acc body] Hacc; [exact Hunf|].
  unfold run in *. cbn [TextSearch_loop st_world st_results st_reqBody] in *.
  destruct (pageRequest ctx header body) as [req|err]; [|apply Hcreate].
  destruct (doTextHTMLSearch w req) as [w1 [[rs next]|err]] eqn:Hdo;
    [|apply Hfail].
  destruct (len rs =? 0); [by apply Hfinish|].
  destruct (doTextHTMLSearch_page _ _ _ _ _ Hdo) as (doc & Hdoc).
  assert (Inv (acc ++ rs)) as Hacc'.
  { replace rs with (parseDocument doc).1 by (by rewrite Hdoc). by apply Happ. }
  destruct (maxResults c <=? len (acc ++ rs)).
  { destruct (maxResults c <? 0) eqn:Hneg; [by apply Hpanic, Z.ltb_lt|].
    by apply Hfinish, Htake. }
  destruct (map_len next =? 0); [by apply Hfinish|].
  specialize (IH {| st_world := time_After 3 w1; st_results := acc ++ rs;
                    st_reqBody := next |} Hacc').
  cbn [st_world st_results st_reqBody] in IH.
  by destruct (TextSearch_loop fuel c ctx header (time_After 3 w1) (acc ++ rs) next)
    as [[w3 tr] out].
Qed.

End outcomes.

(** The same rule for a call of [TextSearch]. *)
Lemma TextSearch_outcome {W : Type} `{!Runtime W}
    (Inv : list TextSearchResult → Prop) (Post : Outcome → Prop)
    (c : client) (ctx : option Context) (input : TextSearchRequest) (w : W) :
  Post (Returned (errorResponse msg_query_required)) →
  Post (Returned (errorResponse msg_query_too_long)) →
  Post Unfinished →
  (maxResults c < 0 → ∀ msg, Post (Panicked msg)) →
  (∀ err, Post (Returned (errorResponse
             ("failed to create search request: " +:+ err)))) →
  (∀ err, Post (Returned (errorResponse
             ("search request failed: " +:+ err +:+
              ". Please try again or rephrase your query")))) →
  (∀ l, Inv l → Post (Returned (finish l))) →
  Inv [] →
  (∀ l doc, Inv l → Inv (l ++ (parseDocument doc).1)) →
  (∀ l n, Inv l → Inv (take n l)) →
  Post (TextSearch c ctx input w).2.
Proof.
  intros Hreq Hlong Hunf Hpanic Hcreate Hfail Hfinish Hnil Happ Htake.
  unfold TextSearch.
  destruct (bool_decide _); [exact Hreq|].
  destruct (500 <? _); [exact Hlong|].
  destruct (maxResults c <? 0) eqn:Hneg; [by apply Hpanic, Z.ltb_lt|].
  destruct (buildTextHTMLRequestHeader w) as [w0 header].
  apply (run_outcome c ctx header Inv Post Hunf Hpanic Hcreate Hfail Hfinish
           Happ Htake (S (Z.to_nat (maxResults c)))
           {| st_world := w0; st_results := [];
              st_reqBody := buildTextHTMLRequestBody input (region c) |}).
  exact Hnil.
Qed.

Lemma Message_finish_ne (l : list TextSearchResult) : Message (finish l) ≠ "".
Proof. unfold finish. destruct (len l =? 0); discriminate. Qed.

(** A response is an error or a success, never both: with an error message
    there is neither a status message nor a result; without one there is a
    status message. *)
Theorem TextSearch_error_or_success
    {W : Type} `{!Runtime W} (c : client) (ctx : option Context)
    (input : TextSearchRequest) (w : W) (resp : TextSearchResponse) :
  (TextSearch c ctx input w).2 = Returned resp →
  (ErrorMessage resp ≠ "" ∧ Message resp = "" ∧ Results resp = []) ∨
  (ErrorMessage resp = "" ∧ Message resp ≠ "").
Proof.
  revert resp.
  apply (TextSearch_outcome (λ _, True)
           (λ o, ∀ resp, o = Returned resp →
              (ErrorMessage resp ≠ "" ∧ Message resp = "" ∧ Results resp = []) ∨
              (ErrorMessage resp = "" ∧ Message resp ≠ "")));
    try done; try (intros; simplify_eq; by left).
  intros l _ resp [= <-]. right.
  split; [apply ErrorMessage_finish|apply Message_finish_ne].
Qed.

Lemma TextSearch_error_or_success_witness :
  (ErrorMessage (errorResponse msg_query_required) ≠ "" ∧
   Message (errorResponse msg_query_required) = "" ∧
   Results (errorResponse msg_query_required) = []) ∨
  (ErrorMessage (errorResponse msg_query_required) = "" ∧
   Message (errorResponse msg_query_required) ≠ "").
Proof.
  apply (TextSearch_error_or_success (Runtime0 := Examples.rt) (Examples.upto 5)
           Examples.background {| Query := ""; TimeRange := TimeRangeAny |}
           Examples.two_pages).
  by_computation.
Defined.

(** The status message of a success tells how many results it holds:
    ["Found n results successfully."] with [n] the length of the result list,
    or the no-results message when the list is empty. *)
Theorem TextSearch_message_counts_results
    {W : Type} `{!Runtime W} (c : client) (ctx : option Context)
    (input : TextSearchRequest) (w : W) (resp : TextSearchResponse) :
  (TextSearch c ctx input w).2 = Returned resp →
  ErrorMessage resp = "" →
  Message resp =
    if bool_decide (Results resp = []) then
      "No results found for your query. Try using different keywords or broader search terms."
    else "Found " +:+ itoa (len (Results resp)) +:+ " results successfully.".
Proof.
  revert resp.
  apply (TextSearch_outcome (λ _, True)
           (λ o, ∀ resp, o = Returned resp → ErrorMessage resp = "" →
              Message resp =
                if bool_decide (Results resp = []) then
                  "No results found for your query. Try using different keywords or broader search terms."
                else "Found " +:+ itoa (len (Results resp)) +:+
                     " results successfully."));
    try done; try (by intros; simplify_eq).
  intros l _ resp [= <-] _. rewrite Results_finish. unfold finish.
  destruct (len l =? 0) eqn:E.
  - apply Z.eqb_eq, len_nil_iff in E. by rewrite bool_decide_eq_true_2.
  - apply Z.eqb_neq in E. rewrite bool_decide_eq_false_2; [done|].
    intros ->. by apply E.
Qed.

Lemma TextSearch_message_counts_results_witness :
  Message (finish (Examples.rs1 ++ Examples.rs2)) =
    if bool_decide (Results (finish (Examples.rs1 ++ Examples.rs2)) = []) then
      "No results found for your query. Try using different keywords or broader search terms."
    else "Found " +:+ itoa (len (Results (finish (Examples.rs1 ++ Examples.rs2))))
         +:+ " results successfully.".
Proof.
  apply (TextSearch_message_counts_results (Runtime0 := Examples.rt)
           (Examples.upto 5) Examples.background Examples.golang
           Examples.two_pages);
    by_computation.
Defined.

(** ** What every returned result satisfies *)

(** The two kinds of links the parser leaves out. *)
Definition is_wrapper (href : string) : bool :=
  strings.HasPrefix href "http://www.google.com/search?q="
  || strings.HasPrefix href "https://duckduckgo.com/y.js?ad_domain".

Lemma parse_entry_links (st : ParseState) (s : Located) :
  Forall (λ r, URL r ≠ "" ∧ is_wrapper (URL r) = false) (results st) →
  Forall (λ r, URL r ≠ "" ∧ is_wrapper (URL r) = false)
         (results (parse_entry st s)).
Proof.
  intros Hst. unfold parse_entry.
  destruct (Length _ =? 0); [done|].
  set (href := (Attr _ "href").1).
  destruct (bool_decide (href = "")) eqn:Hhref; [done|].
  apply bool_decide_eq_false in Hhref.
  destruct (bool_decide (is_Some (hrefCache st !! href))); [done|].
  cbn [orb].
  destruct (_ || _) eqn:Hwrap; [done|].
  destruct (Length _ =? 0); [done|].
  cbn [results]. apply Forall_app. split; [assumption|].
  apply Forall_singleton. cbn [URL]. by split.
Qed.

Lemma parseDocument_links (doc : html.Node) :
  Forall (λ r, URL r ≠ "" ∧ is_wrapper (URL r) = false) (parseDocument doc).1.
Proof.
  rewrite parseDocument_results.
  generalize (Find sel_web_result (root doc)).
  assert (Forall (λ r, URL r ≠ "" ∧ is_wrapper (URL r) = false)
            (results {| hrefCache := ∅; results := [] |})) as Hinit
    by constructor.
  revert Hinit. generalize {| hrefCache := ∅; results := [] |}.
  intros st Hst l. revert st Hst.
  induction l as [|s l IH]; intros st Hst; [exact Hst|].
  cbn [foldl]. apply IH. by apply parse_entry_links.
Qed.

(** Every result a call returns has a link, and the link is neither a
    Google search redirect nor a DuckDuckGo advertisement. *)
Theorem TextSearch_results_have_links
    {W : Type} `{!Runtime W} (c : client) (ctx : option Context)
    (input : TextSearchRequest) (w : W) (resp : TextSearchResponse)
    (r : TextSearchResult) :
  (TextSearch c ctx input w).2 = Returned resp →
  r ∈ Results resp →
  URL r ≠ "" ∧
  strings.HasPrefix (URL r) "http://www.google.com/search?q=" = false ∧
  strings.HasPrefix (URL r) "https://duckduckgo.com/y.js?ad_domain" = false.
Proof.
  intros Hrun Hr.
  assert (URL r ≠ "" ∧ is_wrapper (URL r) = false) as [Hne Hwrap].
  { revert resp Hrun r Hr.
    apply (TextSearch_outcome
             (Forall (λ r, URL r ≠ "" ∧ is_wrapper (URL r) = false))
             (λ o, ∀ resp, o = Returned resp → ∀ r, r ∈ Results resp →
                URL r ≠ "" ∧ is_wrapper (URL r) = false));
      try done;
      try (intros; simplify_eq; cbn in *; by exfalso; eapply elem_of_nil).
    - intros l Hl resp [= <-] r. rewrite Results_finish.
      revert r. by apply Forall_forall.
    - intros l doc Hl. apply Forall_app. split; [done|apply parseDocument_links].
    - intros l n Hl. by apply Forall_take. }
  apply orb_false_iff in Hwrap. tauto.
Qed.

Lemma TextSearch_results_have_links_witness :
  URL {| Title := "Go Packages"; URL := "https://pkg.go.dev/";
         Summary := "Find packages" |} ≠ "" ∧
  strings.HasPrefix "https://pkg.go.dev/" "http://www.google.com/search?q=" = false ∧
  strings.HasPrefix "https://pkg.go.dev/" "https://duckduckgo.com/y.js?ad_domain" = false.
Proof.
  apply (TextSearch_results_have_links (Runtime0 := Examples.rt)
           (Examples.upto 5) Examples.background Examples.golang
           Examples.two_pages (finish (Examples.rs1 ++ Examples.rs2))).
  - by_computation.
  - vm_compute. do 3 apply list_elem_of_further. apply list_elem_of_here.
Defined.

(** ** The capacity of the result list *)

(** With a negative [maxResults] (a client not made by [buildClient]) a call
    with a valid query panics when it allocates the result list, before any
    request. *)
Theorem TextSearch_negative_maxResults_panics
    {W : Type} `{!Runtime W} (c : client) (ctx : option Context)
    (input : TextSearchRequest) (w : W) :
  Query input ≠ "" →
  Z.of_nat (String.length (Query input)) ≤ 500 →
  maxResults c < 0 →
  TextSearch c ctx input w =
    (w, [], Panicked "runtime error: makeslice: cap out of range").
Proof.
  intros Hq Hlen Hneg. unfold TextSearch.
  rewrite bool_decide_eq_false_2 by assumption.
  destruct (500 <? _) eqn:E; [apply Z.ltb_lt in E; lia|].
  apply Z.ltb_lt in Hneg. by rewrite Hneg.
Qed.

Lemma TextSearch_negative_maxResults_panics_witness :
  TextSearch (Runtime0 := Examples.rt) (Examples.upto (-1)) Examples.background
    Examples.golang Examples.two_pages
  = (Examples.two_pages, [],
     Panicked "runtime error: makeslice: cap out of range").
Proof.
  apply (TextSearch_negative_maxResults_panics (Runtime0 := Examples.rt));
    by_computation.
Defined.

(** ** Edges of a round *)

Lemma makeslice_allocates (cap : Z) :
  makeslice_panics cap = false → 0 ≤ cap ≤ 2 ^ 45.
Proof.
  unfold makeslice_panics. intros [H1 H2]%orb_false_iff.
  apply Z.ltb_ge in H1, H2. lia.
Qed.

(** With a nil context, a valid query and a [maxResults] that [make] can
    allocate, the call fails when it builds the first request, and sends
    nothing. *)
Theorem TextSearch_nil_context
    {W : Type} `{!Runtime W} (c : client) (input : TextSearchRequest) (w : W) :
  Query input ≠ "" →
  Z.of_nat (String.length (Query input)) ≤ 500 →
  makeslice_panics (maxResults c) = false →
  TextSearch c None input w =
    ((buildTextHTMLRequestHeader w).1, [],
     Returned (errorResponse
       "failed to create search request: net/http: nil Context")).
Proof.
  intros Hq Hlen [Hmax _]%makeslice_allocates. by rewrite TextSearch_valid.
Qed.

Lemma TextSearch_nil_context_witness :
  TextSearch (Runtime0 := Examples.rt) (Examples.upto 5) None Examples.golang
    Examples.two_pages
  = ((buildTextHTMLRequestHeader (Runtime0 := Examples.rt) Examples.two_pages).1,
     [],
     Returned (errorResponse
       "failed to create search request: net/http: nil Context")).
Proof.
  apply (TextSearch_nil_context (Runtime0 := Examples.rt)); by_computation.
Defined.


(** A successful page comes from a response with status 200 whose body was
    read and parsed; the page is what the parser makes of its document. *)
Theorem doTextHTMLSearch_success
    {W : Type} `{!Runtime W} (w : W) (req : http.Request) (w1 : W)
    (page : list TextSearchResult * url_Values) :
  doTextHTMLSearch w req = (w1, inl page) →
  ∃ resp respBody doc,
    httpCli_Do w req = (w1, inl resp) ∧
    http.StatusCode resp = 200 ∧
    http.ReadAll resp = inl respBody ∧
    goquery_NewDocumentFromReader respBody = inl doc ∧
    page = parseDocument doc.
Proof.
  unfold doTextHTMLSearch, parseTextHTMLSearchResponse.
  destruct (httpCli_Do w req) as [w' [resp|e]]; [|discriminate].
  destruct (statusError (http.StatusCode resp)) eqn:Hs; [discriminate|].
  destruct (http.ReadAll resp) as [body|e] eqn:Hr; [|discriminate].
  destruct (goquery_NewDocumentFromReader body) as [doc|e] eqn:Hp; [|discriminate].
  intros [= <- <-]. exists resp, body, doc. repeat split; try done.
  unfold statusError, http.StatusTooManyRequests, http.StatusForbidden,
    http.StatusOK in Hs.
  destruct (_ =? 429); [discriminate|]. destruct (_ =? 403); [discriminate|].
  destruct (http.StatusCode resp =? 200) eqn:E; [|discriminate].
  by apply Z.eqb_eq.
Qed.

(** ** The events of a call *)

(** Requests separated by waits of three seconds: nothing, or a request, or
    a request, a wait and a further such sequence that starts with a
    request. *)
Inductive paced : list Event → Prop :=
| paced_nil : paced []
| paced_last req : paced [EvDo req]
| paced_next req req' tr :
    paced (EvDo req' :: tr) →
    paced (EvDo req :: EvAfter 3 :: EvDo req' :: tr).

(** The number of requests among the events. *)
Fixpoint requests (tr : list Event) : nat :=
  match tr with
  | [] => 0
  | EvDo _ :: tr' => S (requests tr')
  | EvAfter _ :: tr' => requests tr'
  end.

Section events.
Context {W : Type} `{!Runtime W}.
Variables (c : client) (ctx : option Context) (header : http_Header).

Lemma pageRequest_inv (body : url_Values) (req : http.Request) :
  pageRequest ctx header body = inl req →
  ctx = Some (http.Ctx req) ∧
  http.Method req = "POST" ∧
  http.Url req = "https://html.duckduckgo.com/html/" ∧
  http.Header req = header ∧
  http.Body req = url_Encode body.
Proof.
  unfold pageRequest, http.NewRequestWithContext.
  destruct ctx as [k|]; [|discriminate]. by intros [= <-].
Qed.

Lemma pageRequest_again (body body' : url_Values) (req : http.Request) :
  pageRequest ctx header body = inl req →
  ∃ req', pageRequest ctx header body' = inl req'.
Proof.
  unfold pageRequest, http.NewRequestWithContext.
  destruct ctx as [k|]; [|discriminate]. intros _. by eexists.
Qed.

Lemma run_first_event fuel s req :
  pageRequest ctx header (st_reqBody s) = inl req →
  ∃ tl, (run c ctx header (S fuel) s).1.2 = EvDo req :: tl.
Proof.
  intros Hreq. unfold run. cbn [TextSearch_loop]. rewrite Hreq.
  destruct (doTextHTMLSearch (st_world s) req) as [w1 [[rs next]|err]];
    [|by eexists].
  destruct (len rs =? 0); [by eexists|].
  destruct (maxResults c <=? _).
  { destruct (maxResults c <? 0); by eexists. }
  destruct (map_len next =? 0); [by eexists|].
  destruct (TextSearch_loop fuel c ctx header _ _ _) as [[w3 tr] out].
  by eexists.
Qed.

(** What the events of the loop look like, when it has rounds enough. *)
Lemma run_events fuel s :
  enough c fuel s →
  paced (run c ctx header fuel s).1.2 ∧
  (requests (run c ctx header fuel s).1.2
     ≤ Nat.max 1 (Z.to_nat (maxResults c) - length (st_results s)))%nat ∧
  ∀ req, EvDo req ∈ (run c ctx header fuel s).1.2 →
         ∃ body, pageRequest ctx header body = inl req.
Proof.
  revert s. induction fuel as [|fuel IH]; intros [w acc body] Hfuel.
  { unfold enough in Hfuel. lia. }
  unfold run in *. cbn [TextSearch_loop st_world st_results st_reqBody] in *.
  assert (∀ req : http.Request,
            pageRequest ctx header body = inl req →
            paced [EvDo req] ∧
            (requests [EvDo req]
               ≤ Nat.max 1 (Z.to_nat (maxResults c) - length acc))%nat ∧
            ∀ req', EvDo req' ∈ [EvDo req] →
                    ∃ body, pageRequest ctx header body = inl req') as Hone.
  { intros req Hreq. split; [constructor|]. split; [cbn; lia|].
    intros req' [= ->]%list_elem_of_singleton. by exists body. }
  destruct (pageRequest ctx header body) as [req|err] eqn:Hreq.
  2: { cbn. split; [constructor|]. split; [lia|].
       intros req Hin. by apply elem_of_nil in Hin. }
  destruct (doTextHTMLSearch w req) as [w1 [[rs next]|err]];
    [|by apply Hone].
  destruct (len rs =? 0) eqn:E1; [by apply Hone|].
  destruct (maxResults c <=? len (acc ++ rs)) eqn:E2.
  { destruct (maxResults c <? 0); by apply Hone. }
  destruct (map_len next =? 0); [by apply Hone|].
  apply Z.eqb_neq in E1. apply Z.leb_gt in E2.
  assert (length acc < length (acc ++ rs) < Z.to_nat (maxResults c))%nat as Hroom.
  { unfold len in *. rewrite length_app in *. destruct rs; simpl in *; lia. }
  set (s' := {| st_world := time_After 3 w1; st_results := acc ++ rs;
                st_reqBody := next |}).
  assert (enough c fuel s') as Hfuel'.
  { unfold enough, s' in *. cbn [st_results] in *. lia. }
  destruct (IH s' Hfuel') as (Hpaced & Hcount & Hreqs).
  destruct (pageRequest_again body next req Hreq) as (req' & Hreq').
  destruct fuel as [|fuel]; [unfold enough in Hfuel'; lia|].
  destruct (run_first_event fuel s' req' Hreq') as (tl & Htl).
  unfold run, s' in *. cbn [st_world st_results st_reqBody] in *.
  destruct (TextSearch_loop (S fuel) c ctx header (time_After 3 w1) (acc ++ rs) next)
    as [[w3 tr] out].
  cbn [fst snd] in *. subst tr. split; [by constructor|]. split.
  - cbn [requests] in *. lia.
  - intros r [[= ->]|Hin]%elem_of_cons; [by exists body|].
    apply elem_of_cons in Hin as [[=]|Hin]. by apply Hreqs.
Qed.

End events.

(** The requests of a call are paced, three seconds apart, and there are at
    most [maxResults] of them (one, when [maxResults] is 0): every page but
    the last adds a record. *)
Theorem TextSearch_requests_paced_and_bounded
    {W : Type} `{!Runtime W} (c : client) (ctx : option Context)
    (input : TextSearchRequest) (w : W) :
  paced (TextSearch c ctx input w).1.2 ∧
  Z.of_nat (requests (TextSearch c ctx input w).1.2) ≤ Z.max 1 (maxResults c).
Proof.
  unfold TextSearch.
  destruct (bool_decide _); [split; [constructor|cbn; lia]|].
  destruct (500 <? _); [split; [constructor|cbn; lia]|].
  destruct (maxResults c <? 0) eqn:E; [split; [constructor|cbn; lia]|].
  apply Z.ltb_ge in E.
  destruct (buildTextHTMLRequestHeader w) as [w0 header].
  destruct (run_events c ctx header (S (Z.to_nat (maxResults c)))
              {| st_world := w0; st_results := [];
                 st_reqBody := buildTextHTMLRequestBody input (region c) |})
    as (Hpaced & Hcount & _).
  { unfold enough. cbn [st_results length]. lia. }
  unfold run in *. cbn [st_world st_results st_reqBody length] in *.
  split; [exact Hpaced|]. lia.
Qed.

(** The header set of the requests: six fixed headers and the user agent
    drawn from the pool. *)
Lemma buildTextHTMLRequestHeader_fields {W : Type} `{!Runtime W} (w : W) :
  dom (buildTextHTMLRequestHeader w).2 =
    {[ "Referer"; "Sec-Fetch-Site"; "Sec-Fetch-Dest"; "Sec-Fetch-Mode";
       "Sec-Fetch-User"; "Content-Type"; "User-Agent" ]} ∧
  (buildTextHTMLRequestHeader w).2 !! "Referer"
    = Some ["https://html.duckduckgo.com/"] ∧
  (buildTextHTMLRequestHeader w).2 !! "Sec-Fetch-Site" = Some ["same-origin"] ∧
  (buildTextHTMLRequestHeader w).2 !! "Sec-Fetch-Dest" = Some ["document"] ∧
  (buildTextHTMLRequestHeader w).2 !! "Sec-Fetch-Mode" = Some ["navigate"] ∧
  (buildTextHTMLRequestHeader w).2 !! "Sec-Fetch-User" = Some ["?1"] ∧
  (buildTextHTMLRequestHeader w).2 !! "Content-Type"
    = Some ["application/x-www-form-urlencoded"] ∧
  (buildTextHTMLRequestHeader w).2 !! "User-Agent"
    = Some [(uarand_GetRandom w).2] ∧
  (buildTextHTMLRequestHeader w).1 = (uarand_GetRandom w).1.
Proof.
  unfold buildTextHTMLRequestHeader.
  destruct (uarand_GetRandom w) as [w' ua]. cbn [fst snd].
  repeat split; vm_compute; reflexivity.
Qed.

(** Every request of a call is a POST to the search endpoint, bound to the
    context of the call, and carries the one header set built at the start
    of the call: the user agent is drawn once per call, not per page. *)
Theorem TextSearch_requests_uniform
    {W : Type} `{!Runtime W} (c : client) (ctx : option Context)
    (input : TextSearchRequest) (w : W) (req : http.Request) :
  EvDo req ∈ (TextSearch c ctx input w).1.2 →
  http.Method req = "POST" ∧
  http.Url req = "https://html.duckduckgo.com/html/" ∧
  ctx = Some (http.Ctx req) ∧
  http.Header req = (buildTextHTMLRequestHeader w).2 ∧
  http.Header req !! "User-Agent" = Some [(uarand_GetRandom w).2].
Proof.
  unfold TextSearch.
  destruct (bool_decide _); [by intros ?%elem_of_nil|].
  destruct (500 <? _); [by intros ?%elem_of_nil|].
  destruct (maxResults c <? 0) eqn:E; [by intros ?%elem_of_nil|].
  apply Z.ltb_ge in E.
  pose proof (buildTextHTMLRequestHeader_fields w) as Hfields.
  destruct (buildTextHTMLRequestHeader w) as [w0 header]. cbn [fst snd] in *.
  destruct (run_events c ctx header (S (Z.to_nat (maxResults c)))
              {| st_world := w0; st_results := [];
                 st_reqBody := buildTextHTMLRequestBody input (region c) |})
    as (_ & _ & Hreqs).
  { unfold enough. cbn [st_results length]. lia. }
  unfold run in *. cbn [st_world st_results st_reqBody] in *.
  intros (body & Hbody)%Hreqs.
  destruct (pageRequest_inv ctx header body req Hbody) as (? & ? & ? & Hh & _).
  repeat split; try done. rewrite Hh. tauto.
Qed.

(** ** The continuation token and the number of records of a page *)

Lemma parse_hidden_single (m : url_Values) (s : Located) :
  (∀ k vs, m !! k = Some vs → ∃ v, vs = [v]) →
  ∀ k vs, parse_hidden m s !! k = Some vs → ∃ v, vs = [v].
Proof.
  intros Hm k vs. unfold parse_hidden.
  destruct (Attr [s] "name") as [name nameExist].
  destruct (Attr [s] "value") as [value valueExist].
  destruct (nameExist && valueExist); [|apply Hm].
  destruct (decide (name = k)) as [->|Hne].
  - rewrite lookup_insert_eq. intros [= <-]. by eexists.
  - rewrite lookup_insert_ne by done. apply Hm.
Qed.

(** Each key of a continuation token has exactly one value: a hidden input
    that repeats a name replaces the value of the earlier one. *)
Theorem parseDocument_token_single_valued
    (doc : html.Node) (k : string) (vs : list string) :
  (parseDocument doc).2 !! k = Some vs → ∃ v, vs = [v].
Proof.
  unfold parseDocument. destruct (Length _ =? 0); cbn [snd].
  { by rewrite lookup_empty. }
  generalize (Find sel_hidden (Last (Find sel_form (root doc)))).
  intros l. revert k vs.
  assert (∀ k vs, (∅ : url_Values) !! k = Some vs → ∃ v, vs = [v]) as Hinit.
  { intros k vs. by rewrite lookup_empty. }
  revert Hinit. generalize (∅ : url_Values).
  induction l as [|s l IH]; intros m Hm; [exact Hm|].
  cbn [foldl]. apply IH. by apply parse_hidden_single.
Qed.

Lemma parseDocument_token_single_valued_witness :
  ∃ v, ["10"] = [v].
Proof.
  apply (parseDocument_token_single_valued Examples.golang1 "s" ["10"]).
  by_computation.
Defined.

Lemma parse_entry_length (st : ParseState) (s : Located) :
  (length (results (parse_entry st s)) ≤ S (length (results st)))%nat.
Proof.
  unfold parse_entry.
  repeat (match goal with
          | |- context [if ?b then _ else _] => destruct b
          end; [lia|]).
  cbn [results]. rewrite length_app. cbn. lia.
Qed.

(** A page has at most one record per result entry ([div.web-result] under
    [div#links]). *)
Theorem parseDocument_at_most_one_per_entry (doc : html.Node) :
  (length (parseDocument doc).1
     ≤ length (Find sel_web_result (root doc)))%nat.
Proof.
  rewrite parseDocument_results.
  generalize (Find sel_web_result (root doc)). intros l.
  assert (∀ st, length (results (foldl parse_entry st l))
                  ≤ length (results st) + length l)%nat as Hfold.
  { induction l as [|s l IH]; intros st; cbn [foldl length]; [lia|].
    specialize (IH (parse_entry st s)).
    pose proof (parse_entry_length st s). lia. }
  specialize (Hfold {| hrefCache := ∅; results := [] |}).
  cbn [results length] in Hfold. lia.
Qed.

(** ** Instances on the scripted world *)

Module Further.
Import Scripted.

(** A page without entries that still offers a next page. *)
Definition exhausted : html.Node :=
  page [ navLink [("q", "golang"); ("s", "20"); ("vqd", "4-123")] ].

Definition rt : Runtime World := runtime [ (render exhausted, exhausted) ].


End Further.


Lemma doTextHTMLSearch_success_witness :
  ∃ resp respBody doc,
    httpCli_Do (Runtime := Examples.rt) Examples.two_pages Examples.req1
      = (Examples.then_ Examples.two_pages, inl resp) ∧
    http.StatusCode resp = 200 ∧
    http.ReadAll resp = inl respBody ∧
    goquery_NewDocumentFromReader (Runtime := Examples.rt) respBody = inl doc ∧
    (Examples.rs1, Examples.next1) = parseDocument doc.
Proof.
  apply (doTextHTMLSearch_success (Runtime0 := Examples.rt) Examples.two_pages
           Examples.req1 (Examples.then_ Examples.two_pages)
           (Examples.rs1, Examples.next1)).
  by_computation.
Defined.

Lemma TextSearch_requests_uniform_witness :
  http.Method Examples.req2 = "POST" ∧
  http.Url Examples.req2 = "https://html.duckduckgo.com/html/" ∧
  Examples.background = Some (http.Ctx Examples.req2) ∧
  http.Header Examples.req2 =
    (buildTextHTMLRequestHeader (Runtime0 := Examples.rt) Examples.two_pages).2 ∧
  http.Header Examples.req2 !! "User-Agent" =
    Some [(uarand_GetRandom (Runtime := Examples.rt) Examples.two_pages).2].
Proof.
  apply (TextSearch_requests_uniform (Runtime0 := Examples.rt) (Examples.upto 5)
           Examples.background Examples.golang Examples.two_pages Examples.req2).
  vm_compute. do 2 apply list_elem_of_further. apply list_elem_of_here.
Defined.

(** ** White space around titles and summaries *)

Section trimming.
Import strings.

(** A string as the list of its bytes. *)
Definition chars (s : string) : list Ascii.ascii := String.list_ascii_of_string s.

Lemma chars_inj (s t : string) : chars s = chars t → s = t.
Proof.
  intros H. rewrite <- (String.string_of_list_ascii_of_string s),
    <- (String.string_of_list_ascii_of_string t). unfold chars in H. by rewrite H.
Qed.

Lemma chars_length (s : string) : String.length s = length (chars s).
Proof. induction s as [|a s IH]; cbn; [done|]. by rewrite IH. Qed.

Lemma chars_rev_app (s acc : string) :
  chars (String.rev_app s acc) = reverse (chars s) ++ chars acc.
Proof.
  unfold chars. revert acc.
  induction s as [|a s IH]; intros acc;
    cbn [String.rev_app String.list_ascii_of_string]; [done|].
  rewrite IH, reverse_cons. cbn [String.list_ascii_of_string].
  by rewrite <- app_assoc.
Qed.

Lemma chars_rev (s : string) : chars (String.rev s) = reverse (chars s).
Proof. unfold String.rev. rewrite chars_rev_app. cbn. by rewrite app_nil_r. Qed.

Lemma rev_rev (s : string) : String.rev (String.rev s) = s.
Proof. apply chars_inj. by rewrite !chars_rev, reverse_involutive. Qed.

Lemma chars_drop (n : nat) (s : string) : chars (drop n s) = list.drop n (chars s).
Proof.
  revert s. induction n as [|n IH]; intros [|a s]; cbn; try done.
Qed.

Lemma chars_cons (a : Ascii.ascii) (s : string) : chars (String a s) = a :: chars s.
Proof. reflexivity. Qed.

Lemma prefix_chars (p s : string) :
  String.prefix p s = true ↔ ∃ l, chars s = chars p ++ l.
Proof.
  revert s. induction p as [|a p IH]; intros [|b s];
    cbn [String.prefix]; rewrite ?chars_cons;
    change (chars "") with (@nil Ascii.ascii).
  - split; [by eexists|done].
  - split; [by eexists|done].
  - split; [done|]. by intros [l [=]].
  - destruct (Ascii.ascii_dec a b) as [->|Hne].
    + rewrite IH. split; intros [l Hl]; exists l.
      * by rewrite Hl.
      * by simplify_eq/=.
    + split; [done|]. intros [l [=]]. congruence.
Qed.

Lemma strip1_None (table : list string) (s : string) :
  strip1 table s = None ↔ ∀ p, p ∈ table → String.prefix p s = false.
Proof.
  unfold strip1. induction table as [|q table IH]; cbn.
  { split; [|done]. by intros _ p ?%elem_of_nil. }
  destruct (String.prefix q s) eqn:Hq; cbn.
  - split; [done|]. intros H. specialize (H q (list_elem_of_here _ _)). congruence.
  - rewrite IH. split.
    + intros H p [->|Hp]%elem_of_cons; [done|by apply H].
    + intros H p Hp. apply H. by apply list_elem_of_further.
Qed.

Lemma strip1_Some (table : list string) (s s' : string) :
  strip1 table s = Some s' →
  ∃ p, p ∈ table ∧ String.prefix p s = true ∧ s' = drop (String.length p) s.
Proof.
  unfold strip1. induction table as [|q table IH]; cbn; [done|].
  destruct (String.prefix q s) eqn:Hq; cbn.
  - intros [= <-]. exists q. split; [apply list_elem_of_here|done].
  - intros (p & Hp & H)%IH. exists p. split; [by apply list_elem_of_further|done].
Qed.

Lemma trim_left_fixed (table : list string) (fuel : nat) (s : string) :
  strip1 table s = None → trim_left table fuel s = s.
Proof. intros H. destruct fuel; cbn; [done|]. by rewrite H. Qed.

Lemma trim_left_done (table : list string) (fuel : nat) (s : string) :
  (∀ p, p ∈ table → p ≠ "") →
  (String.length s ≤ fuel)%nat →
  strip1 table (trim_left table fuel s) = None.
Proof.
  intros Htable. revert s. induction fuel as [|fuel IH]; intros s Hlen; cbn.
  - destruct s; [|cbn in Hlen; lia].
    apply strip1_None. intros p Hp. specialize (Htable p Hp).
    by destruct p.
  - destruct (strip1 table s) as [s'|] eqn:Hs; [|exact Hs].
    apply IH. apply strip1_Some in Hs as (p & Hp & Hpre & ->).
    apply prefix_chars in Hpre as [l Hl].
    specialize (Htable p Hp).
    rewrite !chars_length, chars_drop, length_drop in *.
    rewrite Hl, length_app in *.
    destruct p; [done|]. cbn in *. lia.
Qed.

Lemma trim_left_drop (table : list string) (fuel : nat) (s : string) :
  ∃ k, trim_left table fuel s = drop k s.
Proof.
  revert s. induction fuel as [|fuel IH]; intros s; cbn; [by exists 0%nat|].
  destruct (strip1 table s) as [s'|] eqn:Hs; [|by exists 0%nat].
  apply strip1_Some in Hs as (p & _ & _ & ->).
  destruct (IH (drop (String.length p) s)) as [k ->].
  exists (String.length p + k)%nat. apply chars_inj.
  by rewrite !chars_drop, drop_drop.
Qed.

Lemma spaces_not_empty (p : string) : p ∈ spaces → p ≠ "".
Proof.
  intros Hp. vm_compute in Hp.
  repeat (apply elem_of_cons in Hp as [->|Hp]; [discriminate|]).
  by apply elem_of_nil in Hp.
Qed.

Lemma rev_spaces_not_empty (p : string) : p ∈ String.rev <$> spaces → p ≠ "".
Proof.
  intros (q & -> & Hq)%list_elem_of_fmap Hrev.
  apply (spaces_not_empty q Hq). rewrite <- (rev_rev q), Hrev. reflexivity.
Qed.

(** What [TrimSpace] returns has no white space left at either end, so
    trimming it again changes nothing. *)
Lemma TrimSpace_idempotent (s : string) : TrimSpace (TrimSpace s) = TrimSpace s.
Proof.
  unfold TrimSpace at 2. set (L := TrimLeftSpace s).
  assert (strip1 spaces L = None) as HL.
  { apply trim_left_done; [apply spaces_not_empty|done]. }
  unfold TrimRightSpace.
  set (X := trim_left (String.rev <$> spaces) (String.length L) (String.rev L)).
  assert (strip1 (String.rev <$> spaces) X = None) as HX.
  { apply trim_left_done; [apply rev_spaces_not_empty|].
    by rewrite !chars_length, chars_rev, length_reverse. }
  assert (strip1 spaces (String.rev X) = None) as HR.
  { apply strip1_None. intros p Hp.
    destruct (String.prefix p (String.rev X)) eqn:Hpre; [|done].
    pose proof (proj1 (strip1_None _ _) HL p Hp) as Hno.
    assert (String.prefix p L = true) as Hyes; [|congruence].
    apply prefix_chars in Hpre as [l Hl]. apply prefix_chars.
    destruct (trim_left_drop (String.rev <$> spaces) (String.length L)
                (String.rev L)) as [k Hk].
    fold X in Hk. rewrite Hk, chars_rev, chars_drop, chars_rev in Hl.
    rewrite drop_reverse, reverse_involutive in Hl.
    exists (l ++ list.drop (length (chars L) - k) (chars L)).
    by rewrite app_assoc, <- Hl, take_drop. }
  unfold TrimSpace, TrimLeftSpace, TrimRightSpace.
  rewrite (trim_left_fixed spaces _ _ HR), rev_rev.
  by rewrite (trim_left_fixed _ _ _ HX).
Qed.

End trimming.

Lemma parse_entry_trimmed (st : ParseState) (s : Located) :
  Forall (λ r, strings.TrimSpace (Title r) = Title r ∧
               strings.TrimSpace (Summary r) = Summary r) (results st) →
  Forall (λ r, strings.TrimSpace (Title r) = Title r ∧
               strings.TrimSpace (Summary r) = Summary r)
         (results (parse_entry st s)).
Proof.
  intros Hst. unfold parse_entry.
  repeat (match goal with
          | |- context [if ?b then _ else _] => destruct b
          end; [done|]).
  cbn [results]. apply Forall_app. split; [assumption|].
  apply Forall_singleton. cbn [Title Summary].
  split; apply TrimSpace_idempotent.
Qed.

Lemma parseDocument_trimmed (doc : html.Node) :
  Forall (λ r, strings.TrimSpace (Title r) = Title r ∧
               strings.TrimSpace (Summary r) = Summary r) (parseDocument doc).1.
Proof.
  rewrite parseDocument_results.
  generalize (Find sel_web_result (root doc)).
  assert (Forall (λ r, strings.TrimSpace (Title r) = Title r ∧
                       strings.TrimSpace (Summary r) = Summary r)
            (results {| hrefCache := ∅; results := [] |})) as Hinit
    by constructor.
  revert Hinit. generalize {| hrefCache := ∅; results := [] |}.
  intros st Hst l. revert st Hst.
  induction l as [|s l IH]; intros st Hst; [exact Hst|].
  cbn [foldl]. apply IH. by apply parse_entry_trimmed.
Qed.

(** The title and the summary of every returned result are trimmed: they
    neither begin nor end with white space, so [TrimSpace] leaves them as
    they are. *)
Theorem TextSearch_results_trimmed
    {W : Type} `{!Runtime W} (c : client) (ctx : option Context)
    (input : TextSearchRequest) (w : W) (resp : TextSearchResponse)
    (r : TextSearchResult) :
  (TextSearch c ctx input w).2 = Returned resp →
  r ∈ Results resp →
  strings.TrimSpace (Title r) = Title r ∧
  strings.TrimSpace (Summary r) = Summary r.
Proof.
  revert resp r.
  apply (TextSearch_outcome
           (Forall (λ r, strings.TrimSpace (Title r) = Title r ∧
                         strings.TrimSpace (Summary r) = Summary r))
           (λ o, ∀ resp r, o = Returned resp → r ∈ Results resp →
              strings.TrimSpace (Title r) = Title r ∧
              strings.TrimSpace (Summary r) = Summary r));
    try done;
    try (intros; simplify_eq; cbn in *; by exfalso; eapply elem_of_nil).
  - intros l Hl resp r [= <-]. rewrite Results_finish.
    revert r. by apply Forall_forall.
  - intros l doc Hl. apply Forall_app. split; [done|apply parseDocument_trimmed].
  - intros l n Hl. by apply Forall_take.
Qed.

Lemma TextSearch_results_trimmed_witness :
  strings.TrimSpace "The Go Programming Language" = "The Go Programming Language" ∧
  strings.TrimSpace "Go is an open source programming language"
    = "Go is an open source programming language".
Proof.
  apply (TextSearch_results_trimmed (Runtime0 := Examples.rt)
           (Examples.upto 5) Examples.background Examples.golang
           Examples.two_pages (finish (Examples.rs1 ++ Examples.rs2))
           {| Title := "The Go Programming Language"; URL := "https://go.dev/";
              Summary := "Go is an open source programming language" |}).
  - by_computation.
  - vm_compute. apply list_elem_of_here.
Defined.

(** ** The first request *)

(** A call with a valid query, a context and a [maxResults] that [make] can
    allocate sends at least one request, and the first one carries the
    encoded form that [buildTextHTMLRequestBody] makes of the query and the
    region of the client. *)
Theorem TextSearch_first_request
    {W : Type} `{!Runtime W} (c : client) (k : Context)
    (input : TextSearchRequest) (w : W) :
  Query input ≠ "" →
  Z.of_nat (String.length (Query input)) ≤ 500 →
  makeslice_panics (maxResults c) = false →
  ∃ req tl,
    (TextSearch c (Some k) input w).1.2 = EvDo req :: tl ∧
    http.Body req = url_Encode (buildTextHTMLRequestBody input (region c)) ∧
    http.Ctx req = k.
Proof.
  intros Hq Hlen [Hmax _]%makeslice_allocates.
  rewrite TextSearch_valid by assumption.
  set (header := (buildTextHTMLRequestHeader w).2).
  set (s := {| st_world := (buildTextHTMLRequestHeader w).1; st_results := [];
               st_reqBody := buildTextHTMLRequestBody input (region c) |}).
  destruct (pageRequest (Some k) header (st_reqBody s)) as [req|err] eqn:Hreq.
  2: { unfold pageRequest, http.NewRequestWithContext in Hreq. discriminate. }
  destruct (run_first_event c (Some k) header (Z.to_nat (maxResults c)) s req Hreq)
    as (tl & Htl).
  exists req, tl. split; [exact Htl|].
  destruct (pageRequest_inv (Some k) header _ req Hreq) as (Hk & _ & _ & _ & Hb).
  split; [exact Hb|]. by simplify_eq.
Qed.

Lemma TextSearch_first_request_witness :
  ∃ req tl,
    (TextSearch (Runtime0 := Examples.rt) (Examples.upto 5)
       (Some {| doneAt := None |}) Examples.golang Examples.two_pages).1.2
      = EvDo req :: tl ∧
    http.Body req =
      url_Encode (Runtime := Examples.rt)
        (buildTextHTMLRequestBody Examples.golang (region (Examples.upto 5))) ∧
    http.Ctx req = {| doneAt := None |}.
Proof.
  apply (TextSearch_first_request (Runtime0 := Examples.rt)); by_computation.
Defined.

(** ** Duplicates, within a page and across pages *)












(** Two pages that share a link, the second one in the other order. *)
Module Overlap.
Import Scripted.

Definition second : html.Node :=
  page [ entry "https://pkg.go.dev/" "Go Packages" "Find packages";
         entry "https://go.dev/" " The Go Programming Language "
           "Go is an open source programming language" ].

Definition rt : Runtime World :=
  runtime [ (render Examples.golang1, Examples.golang1); (render second, second) ].

Definition two_pages : World :=
  Examples.world [ (1, ok (render Examples.golang1)); (1, ok (render second)) ].

End Overlap.



